(** * aws-pulumi-example: the three Pulumi projects as resource declarations

    The repository holds three Pulumi programs (the account project [aws],
    the shared project [shared] and the service project [api]).  Each
    program is a sequence of [new X(name, args, opts)] statements; values
    read from another stack are promise-like [Output]s.  The development
    below embeds

    - the values a stack publishes ([Value]) and the failure of a deferred
      projection ([Output], [apply], [prop]),
    - the declarations a program makes ([Resource], [Input], [Options]),
    - the programs themselves, statement by statement, in a small state and
      error monad ([Prog]),
    - the registration rule of the provisioning engine ([run]). *)

From Stdlib Require Import ZArith String Ascii.
From stdpp Require Import base option list strings gmap pretty relations.

Set Default Proof Using "Type".
Set Warnings "-register-all".

(** ** Values published by a stack *)

Inductive Value : Type :=
| VUndefined
| VNull
| VStr (s : string)
| VNum (z : Z)
| VBool (b : bool)
| VArr (xs : list Value)
| VObj (fields : gmap string Value)
| VNative (member : string).            (* a built-in, found through the prototype chain *)

Inductive Error : Type :=
| TypeError (reading : string)
| MissingRequiredConfig (key : string)
| MissingRequiredOutput (name : string)
| StackNotFound (stackName : string).

(** A [pulumi.Output<T>] once the engine has settled it. *)
Inductive Output (A : Type) : Type :=
| Resolved (a : A)
| Rejected (e : Error).
Arguments Resolved {A} a.
Arguments Rejected {A} e.

(** [o.apply(f)]: the callback runs on the settled value and may throw. *)
Definition apply {A B : Type} (o : Output A) (f : A -> Output B) : Output B :=
  match o with
  | Resolved a => f a
  | Rejected e => Rejected e
  end.

(** ** Property reads *)

(** The string-keyed members of the built-in prototypes (ECMAScript 2023
    with its Annex B).  Every value but [undefined] and [null] inherits
    those of [Object.prototype]; of the prototypes of arrays, strings,
    numbers and booleans the lists hold what [Object.prototype] does not
    have already. *)
Definition objectPrototype : list string :=
  ["constructor"; "__defineGetter__"; "__defineSetter__"; "hasOwnProperty";
   "__lookupGetter__"; "__lookupSetter__"; "isPrototypeOf";
   "propertyIsEnumerable"; "toString"; "valueOf"; "__proto__";
   "toLocaleString"].

Definition arrayPrototype : list string :=
  ["at"; "concat"; "copyWithin"; "entries"; "every"; "fill"; "filter"; "find";
   "findIndex"; "findLast"; "findLastIndex"; "flat"; "flatMap"; "forEach";
   "includes"; "indexOf"; "join"; "keys"; "lastIndexOf"; "map"; "pop"; "push";
   "reduce"; "reduceRight"; "reverse"; "shift"; "slice"; "some"; "sort";
   "splice"; "toReversed"; "toSorted"; "toSpliced"; "unshift"; "values";
   "with"].

Definition stringPrototype : list string :=
  ["at"; "charAt"; "charCodeAt"; "codePointAt"; "concat"; "endsWith";
   "includes"; "indexOf"; "lastIndexOf"; "localeCompare"; "match"; "matchAll";
   "normalize"; "padEnd"; "padStart"; "repeat"; "replace"; "replaceAll";
   "search"; "slice"; "split"; "startsWith"; "substring"; "toLocaleLowerCase";
   "toLocaleUpperCase"; "toLowerCase"; "toUpperCase"; "trim"; "trimEnd";
   "trimStart"; "substr"; "anchor"; "big"; "blink"; "bold"; "fixed";
   "fontcolor"; "fontsize"; "italics"; "link"; "small"; "strike"; "sub";
   "sup"; "trimLeft"; "trimRight"].

Definition numberPrototype : list string :=
  ["toExponential"; "toFixed"; "toPrecision"].

Definition booleanPrototype : list string := [].

Definition member (names : list string) (k : string) : bool :=
  existsb (String.eqb k) names.

(** What the prototype chain gives for [k]: the built-in member of the
    value's own prototype ([names]) or of [Object.prototype], [undefined]
    when there is none. *)
Definition inherited (names : list string) (k : string) : Value :=
  if member (names ++ objectPrototype) k then VNative k else VUndefined.

(** [xs[k]] for an array index [k]: the canonical decimal string of a
    position of [xs]. *)
Fixpoint element_from {A : Type} (i : nat) (xs : list A) (k : string) : option A :=
  match xs with
  | [] => None
  | x :: rest => if String.eqb (pretty i) k then Some x else element_from (S i) rest k
  end.

Definition element {A : Type} (xs : list A) (k : string) : option A :=
  element_from 0 xs k.

(** [v[k]] and [v.k].  Reading a property of [undefined] or [null] throws
    a TypeError.  Of an object the own property comes first, then the
    prototype chain, so that a name like [constructor] or [toString] finds
    a built-in where the object has no such key; an array and a string (of
    ASCII text) also have their elements and [length].  A built-in that was
    found has none of the properties the programs go on to read ([id],
    [arn]), which read as [undefined]; the members it does have ([name],
    [length], ...) are not listed. *)
Definition prop (v : Value) (k : string) : Output Value :=
  match v with
  | VUndefined | VNull => Rejected (TypeError k)
  | VObj fields =>
      Resolved (match fields !! k with
                | Some x => x
                | None => inherited [] k
                end)
  | VArr xs =>
      Resolved (match element xs k with
                | Some x => x
                | None => if String.eqb k "length" then VNum (Z.of_nat (length xs))
                          else inherited arrayPrototype k
                end)
  | VStr s =>
      Resolved (match element (list_ascii_of_string s) k with
                | Some c => VStr (String c "")
                | None => if String.eqb k "length" then VNum (Z.of_nat (String.length s))
                          else inherited stringPrototype k
                end)
  | VNum _ => Resolved (inherited numberPrototype k)
  | VBool _ => Resolved (inherited booleanPrototype k)
  | VNative _ => Resolved VUndefined
  end.

(** ** Stack references *)

(** The state backend: the outputs of the latest successful deployment of
    each stack, by fully qualified stack name. *)
Abbreviation Backend := (gmap string (gmap string Value)).

(** [new pulumi.StackReference(name)] reads the outputs once. *)
Record StackReference : Type := {
  sr_name : string;
  sr_outputs : Output (gmap string Value);
}.

Definition newStackReference (backend : Backend) (name : string) : StackReference :=
  {| sr_name := name;
     sr_outputs := match backend !! name with
                   | Some os => Resolved os
                   | None => Rejected (StackNotFound name)
                   end |}.

(** [ref.getOutput(name)]: [os[name]], a property read of the outputs
    object; [undefined] when there is no such output and no inherited
    member of that name. *)
Definition getOutput (ref : StackReference) (name : string) : Output Value :=
  apply (sr_outputs ref) (fun os => prop (VObj os) name).

(** [ref.requireOutput(name)]: throws when the stack has no such output. *)
Definition requireOutput (ref : StackReference) (name : string) : Output Value :=
  apply (sr_outputs ref) (fun os =>
    match os !! name with
    | Some v => Resolved v
    | None => Rejected (MissingRequiredOutput name)
    end).

(** ** Configuration *)

Abbreviation Config := (gmap string string).

(** [new pulumi.Config(ns).require(key)] throws synchronously when the key
    [ns:key] is not set. *)
Definition require (cfg : Config) (ns key : string) : Error + string :=
  match cfg !! (ns +:+ ":" +:+ key) with
  | Some v => inr v
  | None => inl (MissingRequiredConfig (ns +:+ ":" +:+ key))
  end.

(** ** Resource declarations *)

Inductive Package : Type := aws | awsx | cf | random | pulumi.

#[global] Instance Package_eq_dec : EqDecision Package.
Proof. solve_decision. Defined.

(** The class a [new] expression instantiates, e.g. [aws.ses.DomainIdentity]. *)
Record ResourceType : Type := TY { pkg : Package; cls : string }.

#[global] Instance ResourceType_eq_dec : EqDecision ResourceType.
Proof. solve_decision. Defined.

(** [new X(...)] creates a resource; [X.get(...)] and a stack reference read
    an existing one. *)
Inductive Mode : Type := Create | Read.

Section Declarations.
(** [V] names the program's resource variables. *)
Context {V : Type}.

(** An argument of a resource constructor. *)
Inductive Input : Type :=
| Str (s : string)
| Num (z : Z)
| Ratio (n : Z) (d : positive)
| Bool (b : bool)
| Arr (xs : list Input)
| Obj (fields : list (string * Input))
| Ref (r : V) (path : list string)      (* r.path, an output property *)
| Res (r : V)                           (* the resource object itself *)
| Interp (parts : list Input)           (* pulumi.interpolate`...` *)
| Call (fn : string) (args : list Input) (* a library function or constant *)
| Out (from : V) (o : Output Value)     (* projected from a stack reference *)
| Promise (o : Output Value)            (* a native promise *)
| Secret (v : string).                  (* config.requireSecret *)

Record Options : Type := {
  provider : option V;
  dependsOn : list V;
  protect : option bool;
  ignoreChanges : list string;
}.

Record Resource : Type := {
  ty : ResourceType;
  name : string;
  mode : Mode;
  args : list (string * Input);
  opts : Options;
  (** the output inside whose [apply] callback the constructor is called *)
  within : option V;
}.

Definition no_opts : Options :=
  {| provider := None; dependsOn := []; protect := None; ignoreChanges := [] |}.

Definition with_provider (p : V) : Options :=
  {| provider := Some p; dependsOn := []; protect := None; ignoreChanges := [] |}.

(** The field [k] of an object literal. *)
Fixpoint field (k : string) (fields : list (string * Input)) : option Input :=
  match fields with
  | [] => None
  | (k', i) :: rest => if String.eqb k k' then Some i else field k rest
  end.

(** The resources an argument refers to. *)
Fixpoint refs (i : Input) : list V :=
  match i with
  | Arr xs | Interp xs | Call _ xs => flat_map refs xs
  | Obj fields => flat_map (fun kv => refs (snd kv)) fields
  | Ref r _ | Res r | Out r _ => [r]
  | _ => []
  end.

(** The first rejected deferred value of an argument, if any. *)
Fixpoint rejection (i : Input) : option Error :=
  let fix first (xs : list Input) : option Error :=
    match xs with
    | [] => None
    | x :: rest => match rejection x with Some e => Some e | None => first rest end
    end in
  let fix first_field (fs : list (string * Input)) : option Error :=
    match fs with
    | [] => None
    | (_, x) :: rest =>
        match rejection x with Some e => Some e | None => first_field rest end
    end in
  match i with
  | Arr xs | Interp xs | Call _ xs => first xs
  | Obj fields => first_field fields
  | Out _ (Rejected e) | Promise (Rejected e) => Some e
  | _ => None
  end.

(** What must exist before the engine can create [r]: everything its
    arguments refer to, its provider, its [dependsOn] list and the output
    whose callback declares it. *)
Definition deps (r : Resource) : list V :=
  refs (Obj (args r)) ++ option_list (provider (opts r))
    ++ dependsOn (opts r) ++ option_list (within r).

(** ** Programs *)

(** A program declares resources one after the other and may throw. *)
Abbreviation Decls := (list (V * Resource)).

Definition Prog (A : Type) : Type := Decls -> Decls * (Error + A).

Definition ret {A : Type} (a : A) : Prog A := fun ds => (ds, inr a).

Definition bind {A B : Type} (m : Prog A) (k : A -> Prog B) : Prog B :=
  fun ds => match m ds with
            | (ds', inr a) => k a ds'
            | (ds', inl e) => (ds', inl e)
            end.

(** [const v = new X(...)] *)
Definition new (v : V) (r : Resource) : Prog unit :=
  fun ds => (ds ++ [(v, r)], inr tt).

(** A statement that may throw. *)
Definition attempt {A : Type} (x : Error + A) : Prog A := fun ds => (ds, x).

Definition exec {A : Type} (m : Prog A) : Decls * (Error + A) := m [].

(** ** The provisioning engine *)

Context `{!EqDecision V}.

Inductive Outcome : Type :=
| Created
| WasRead
| Failed (e : Error)
| Blocked.

Definition settled (oc : Outcome) : bool :=
  match oc with Created | WasRead => true | _ => false end.

Fixpoint outcome (log : list (V * Outcome)) (v : V) : option Outcome :=
  match log with
  | [] => None
  | (u, oc) :: rest => if decide (u = v) then Some oc else outcome rest v
  end.

Definition available (log : list (V * Outcome)) (v : V) : bool :=
  match outcome log v with Some oc => settled oc | None => false end.

(** Modelled from the spec: the registration rule of the provisioning
    engine, which is not part of the repository (section 5: the engine
    serialises dependent resource creations on the declared reference
    graph; section 4.3: a failed resolution aborts every resource that
    depends on it).  A declaration whose dependencies are not all
    available is never registered; one of whose deferred arguments is
    rejected fails; any other is created (or read). *)
Definition judge (log : list (V * Outcome)) (r : Resource) : Outcome :=
  if forallb (available log) (deps r) then
    match rejection (Obj (args r)) with
    | Some e => Failed e
    | None => match mode r with Create => Created | Read => WasRead end
    end
  else Blocked.

Definition register (log : list (V * Outcome)) (d : V * Resource)
  : list (V * Outcome) :=
  log ++ [(fst d, judge log (snd d))].

Definition run (ds : Decls) : list (V * Outcome) := fold_left register ds [].

(** The resources a run creates. *)
Definition is_created (ds : Decls) (v : V) : bool :=
  match outcome (run ds) v with Some Created => true | _ => false end.

Definition created (ds : Decls) : list V :=
  List.filter (is_created ds) (map fst ds).

(** ** The reference graph *)

Fixpoint decl (ds : Decls) (v : V) : option Resource :=
  match ds with
  | [] => None
  | (u, r) :: rest => if decide (u = v) then Some r else decl rest v
  end.

(** [direct ds v u]: the declaration of [v] names [u]. *)
Definition direct (ds : Decls) (v u : V) : Prop :=
  exists r, decl ds v = Some r /\ u ∈ deps r.

(** [gated_on ds v u]: [v] cannot be created before [u] exists. *)
Definition gated_on (ds : Decls) : V -> V -> Prop := tc (direct ds).

Definition direct_deps (ds : Decls) (v : V) : list V :=
  match decl ds v with Some r => deps r | None => [] end.

(** [closed_from ds v S]: the list [S] holds the direct dependencies of [v]
    and those of each of its own members. *)
Definition closed_from (ds : Decls) (v : V) (S : list V) : bool :=
  forallb (fun u => bool_decide (u ∈ S)) (direct_deps ds v)
  && forallb (fun x => forallb (fun u => bool_decide (u ∈ S)) (direct_deps ds x)) S.
End Declarations.

Arguments Input : clear implicits.
Arguments Options : clear implicits.
Arguments Resource : clear implicits.
Arguments Prog : clear implicits.

Notation "x <- m ;; k" := (bind m (fun x => k))
  (at level 100, m at next level, right associativity).
Notation "m ;;; k" := (bind m (fun _ => k))
  (at level 100, right associativity).

Definition provider_of {V : Type} (r : Resource V) : option V := provider (opts r).

Definition options {V : Type} (p : option V) (after : list V)
    (prot : option bool) (ignore : list string) : Options V :=
  {| provider := p; dependsOn := after; protect := prot; ignoreChanges := ignore |}.

(** The declaration of a stack reference: the engine reads the outputs of
    the named stack when it registers the reference. *)
Definition reference {V : Type} (ref : StackReference) : Resource V :=
  {| ty := TY pulumi "StackReference";
     name := sr_name ref;
     mode := Read;
     args := [("name", Str (sr_name ref));
              ("outputs", Promise (apply (sr_outputs ref) (fun os => Resolved (VObj os))))];
     opts := no_opts;
     within := None |}.

(** [xs.map(body)], for the declarations the callback makes. *)
Fixpoint for_each {V A : Type} (xs : list A) (body : A -> Prog V unit) : Prog V unit :=
  match xs with
  | [] => ret tt
  | x :: rest => body x ;;; for_each rest body
  end.

(** * The account project (aws) *)

Module Aws.

Inductive Var : Type := DevAccountEmailId | DevAccount.

#[global] Instance Var_eq_dec : EqDecision Var.
Proof. solve_decision. Defined.

Definition devAccountEmailId : Resource Var :=
  {| ty := TY random "RandomId";
     name := "dev-account-email-id";
     mode := Create;
     args := [("byteLength", Num 4)];
     opts := no_opts;
     within := None |}.

Definition devAccount : Resource Var :=
  {| ty := TY aws "organizations.Account";
     name := "development-account";
     mode := Create;
     args := [("name", Str "Development");
              ("email", Interp [Str "superadmin+"; Ref DevAccountEmailId ["hex"];
                                Str "@example.com"]);
              ("roleName", Str "OrganizationalAccountAccessRole");
              ("closeOnDeletion", Bool true)];
     opts := options None [] (Some true) [];
     within := None |}.

Definition program : Prog Var unit :=
  new DevAccountEmailId devAccountEmailId ;;;
  new DevAccount devAccount.

(** [type Account = { id: Output<string>; arn: Output<string> }], settled. *)
Record Account : Type := { id : string; arn : string }.

Section Published.
(** [devAccount.id], assigned by the cloud provider when the account is
    created. *)
Variable devAccountId : string.

Definition accounts : gmap string Account :=
  {[ "dev" :=
       {| id := devAccountId;
          arn := "arn:aws:iam::" +:+ devAccountId
                   +:+ ":role/OrganizationalAccountAccessRole" |} ]}.

Definition account_value (a : Account) : Value :=
  VObj {[ "id" := VStr (id a); "arn" := VStr (arn a) ]}.

(** The exports of the module as the backend stores them.  Of the exported
    account resource only the identifier is kept. *)
Definition outputs : gmap string Value :=
  {[ "devAccount" := VObj {[ "id" := VStr devAccountId ]};
     "accounts" := VObj (account_value <$> accounts) ]}.
End Published.

(** The project has the single stack [prod]. *)
Definition stackName : string := "example/aws/prod".

End Aws.

(** [v.k1.k2...]: a chain of property reads. *)
Fixpoint props (v : Value) (ks : list string) : Output Value :=
  match ks with
  | [] => Resolved v
  | k :: rest => apply (prop v k) (fun x => props x rest)
  end.

(** [names.sort()]: the default order of strings. *)
Fixpoint insert_sorted (s : string) (sorted : list string) : list string :=
  match sorted with
  | [] => [s]
  | t :: rest => if String.leb s t then s :: sorted else t :: insert_sorted s rest
  end.

Definition sort (names : list string) : list string :=
  foldr insert_sorted [] names.

(** * The shared project *)

Module Shared.

Inductive Var : Type :=
| AwsMainStack
| Provider
| CloudflareZone
| SesDomainIdentity
| SesDomainDkim
| SesDomainDkimRecords (index : nat)
| SesRecordVerificationRecord
| SesDomainVerification
| Certificate
| CertificateValidation
| CertificateValidationRecord
| Vpc
| LoadBalancerSecurityGroup
| LoadBalancer
| Listener
| EcsCluster
| RdsSecurityGroup
| RdsSubnetGroup
| RdsInstanceMasterPassword
| RdsCluster
| RdsInstance.

#[global] Instance Var_eq_dec : EqDecision Var.
Proof. solve_decision. Defined.

Section Program.
(** [pulumi.getProject()], [pulumi.getStack()], the stack's configuration,
    the state backend, and what the cloud answers during the run: the DKIM
    tokens of the domain and the names of the availability zones. *)
Variables (project stack : string) (cfg : Config) (backend : Backend).
Variables (dkimTokens azNames : list string).

Definition awsMainStack : StackReference :=
  newStackReference backend "example/aws/prod".

Definition accounts : Output Value := getOutput awsMainStack "accounts".

Definition provider (region : string) : Resource Var :=
  {| ty := TY aws "Provider";
     name := "scoped-provider";
     mode := Create;
     args := [("region", Str region);
              ("allowedAccountIds",
                Arr [Out AwsMainStack
                       (apply accounts (fun accounts => props accounts [stack; "id"]))]);
              ("assumeRole",
                Obj [("roleArn",
                       Out AwsMainStack
                         (apply accounts (fun accounts => props accounts [stack; "arn"])))])];
     opts := no_opts;
     within := None |}.

Definition cloudflareZone (cfZoneId : string) : Resource Var :=
  {| ty := TY cf "Zone";
     name := project +:+ "-zone-" +:+ stack;
     mode := Read;
     args := [("id", Str cfZoneId)];
     opts := no_opts;
     within := None |}.

Definition sesDomainIdentity : Resource Var :=
  {| ty := TY aws "ses.DomainIdentity";
     name := project +:+ "-domain-identity-" +:+ stack;
     mode := Create;
     args := [("domain", Ref CloudflareZone ["zone"])];
     opts := with_provider Provider;
     within := None |}.

Definition sesDomainDkim : Resource Var :=
  {| ty := TY aws "ses.DomainDkim";
     name := project +:+ "-domain-dkim-" +:+ stack;
     mode := Create;
     args := [("domain", Ref SesDomainIdentity ["domain"])];
     opts := with_provider Provider;
     within := None |}.

(** The record declared for one token inside
    [sesDomainDkim.dkimTokens.apply(tokens => tokens.map(...))]. *)
Definition sesDomainDkimRecord (index : nat) (token : string) : Resource Var :=
  {| ty := TY cf "Record";
     name := project +:+ "-ses-dkim-" +:+ stack +:+ "-" +:+ pretty index;
     mode := Create;
     args := [("zoneId", Ref CloudflareZone ["id"]);
              ("name", Interp [Str token; Str "._domainkey"]);
              ("type", Str "CNAME");
              ("value", Interp [Str token; Str ".dkim.amazonses.com"]);
              ("ttl", Num 60);
              ("proxied", Bool false)];
     opts := no_opts;
     within := Some SesDomainDkim |}.

Definition sesRecordVerificationRecord : Resource Var :=
  {| ty := TY cf "Record";
     name := project +:+ "-ses-verification-" +:+ stack;
     mode := Create;
     args := [("name", Interp [Str "_amazonses."; Ref SesDomainIdentity ["domain"]]);
              ("zoneId", Ref CloudflareZone ["id"]);
              ("type", Str "TXT");
              ("value", Ref SesDomainIdentity ["verificationToken"]);
              ("ttl", Num 60);
              ("proxied", Bool false)];
     opts := no_opts;
     within := None |}.

Definition sesDomainVerification : Resource Var :=
  {| ty := TY aws "ses.DomainIdentityVerification";
     name := project +:+ "-ses-domain-verification-" +:+ stack;
     mode := Create;
     args := [("domain", Ref SesDomainIdentity ["domain"])];
     opts := options (Some Provider) [SesRecordVerificationRecord] None [];
     within := None |}.

Definition certificate : Resource Var :=
  {| ty := TY aws "acm.Certificate";
     name := project +:+ "-certificate-" +:+ stack;
     mode := Create;
     args := [("domainName", Interp [Str "*."; Ref CloudflareZone ["zone"]]);
              ("validationMethod", Str "DNS")];
     opts := with_provider Provider;
     within := None |}.

Definition certificateValidation : Resource Var :=
  {| ty := TY aws "acm.CertificateValidation";
     name := project +:+ "-certificate-validation-" +:+ stack;
     mode := Create;
     args := [("certificateArn", Ref Certificate ["arn"])];
     opts := with_provider Provider;
     within := None |}.

Definition certificateValidationRecord : Resource Var :=
  {| ty := TY cf "Record";
     name := project +:+ "-certificate-validation-" +:+ stack;
     mode := Create;
     args := [("name", Ref Certificate ["domainValidationOptions"; "0"; "resourceRecordName"]);
              ("zoneId", Ref CloudflareZone ["id"]);
              ("type", Ref Certificate ["domainValidationOptions"; "0"; "resourceRecordType"]);
              ("value", Ref Certificate ["domainValidationOptions"; "0"; "resourceRecordValue"]);
              ("ttl", Num 60);
              ("proxied", Bool false)];
     opts := no_opts;
     within := None |}.

Definition vpc : Resource Var :=
  {| ty := TY awsx "ec2.Vpc";
     name := project +:+ "-vpc-" +:+ stack;
     mode := Create;
     args := [("enableDnsHostnames", Bool true);
              ("enableDnsSupport", Bool true);
              ("natGateways",
                Obj [("strategy", Call "awsx.ec2.NatGatewayStrategy.Single" [])])];
     opts := with_provider Provider;
     within := None |}.

Definition loadBalancerSecurityGroup : Resource Var :=
  {| ty := TY aws "ec2.SecurityGroup";
     name := project +:+ "-lb-sg-" +:+ stack;
     mode := Create;
     args := [("vpcId", Ref Vpc ["vpcId"]);
              ("egress",
                Arr [Obj [("fromPort", Num 0); ("toPort", Num 0); ("protocol", Str "-1");
                          ("cidrBlocks", Arr [Str "0.0.0.0/0"]);
                          ("ipv6CidrBlocks", Arr [Str "::/0"])]]);
              ("ingress",
                Arr [Obj [("fromPort", Num 0); ("toPort", Num 0); ("protocol", Str "-1");
                          ("cidrBlocks", Arr [Str "0.0.0.0/0"]);
                          ("ipv6CidrBlocks", Arr [Str "::/0"])]])];
     opts := with_provider Provider;
     within := None |}.

Definition loadBalancer : Resource Var :=
  {| ty := TY aws "lb.LoadBalancer";
     name := project +:+ "-lb-" +:+ stack;
     mode := Create;
     args := [("loadBalancerType", Str "application");
              ("securityGroups", Arr [Ref LoadBalancerSecurityGroup ["id"]]);
              ("subnets", Ref Vpc ["publicSubnetIds"])];
     opts := with_provider Provider;
     within := None |}.

Definition listener : Resource Var :=
  {| ty := TY aws "lb.Listener";
     name := project +:+ "-listener-" +:+ stack;
     mode := Create;
     args := [("loadBalancerArn", Ref LoadBalancer ["arn"]);
              ("port", Num 443);
              ("protocol", Str "HTTPS");
              ("certificateArn", Ref Certificate ["arn"]);
              ("sslPolicy", Str "ELBSecurityPolicy-TLS13-1-2-2021-06");
              ("defaultActions",
                Arr [Obj [("type", Str "fixed-response");
                          ("fixedResponse",
                            Obj [("statusCode", Str "404");
                                 ("contentType", Str "text/plain");
                                 ("messageBody", Str "Not found")])]])];
     opts := with_provider Provider;
     within := None |}.

Definition ecsCluster : Resource Var :=
  {| ty := TY aws "ecs.Cluster";
     name := project +:+ "-cluster-" +:+ stack;
     mode := Create;
     args := [("configuration",
                Obj [("executeCommandConfiguration",
                       Obj [("logging", Str "OVERRIDE");
                            ("logConfiguration",
                              Obj [("cloudWatchEncryptionEnabled", Bool true);
                                   ("cloudWatchLogGroupName",
                                     Str (project +:+ "-cluster-lg-" +:+ stack))])])])];
     opts := with_provider Provider;
     within := None |}.

Definition rdsSecurityGroup : Resource Var :=
  {| ty := TY aws "ec2.SecurityGroup";
     name := project +:+ "-rds-cluster-sg-" +:+ stack;
     mode := Create;
     args := [("vpcId", Ref Vpc ["vpc"; "id"]);
              ("ingress",
                Arr [Obj [("protocol", Str "tcp"); ("fromPort", Num 5432);
                          ("toPort", Num 5432);
                          ("cidrBlocks", Arr [Str "0.0.0.0/0"])]]);
              ("egress",
                Arr [Obj [("protocol", Str "-1"); ("fromPort", Num 0);
                          ("toPort", Num 0);
                          ("cidrBlocks", Arr [Str "0.0.0.0/0"])]])];
     opts := with_provider Provider;
     within := None |}.

Definition rdsSubnetGroup : Resource Var :=
  {| ty := TY aws "rds.SubnetGroup";
     name := project +:+ "-rds-cluster-subnet-group-" +:+ stack;
     mode := Create;
     args := [("subnetIds", Ref Vpc ["publicSubnetIds"])];
     opts := with_provider Provider;
     within := None |}.

Definition rdsInstanceMasterPassword : Resource Var :=
  {| ty := TY random "RandomPassword";
     name := project +:+ "-rds-cluster-password-" +:+ stack;
     mode := Create;
     args := [("length", Num 32); ("special", Bool false)];
     opts := no_opts;
     within := None |}.

(** [availabilityZones.then((az) => az.names.sort()[0])], where
    [availabilityZones] is the answer to
    [aws.getAvailabilityZones({ state: "available" })]. *)
Definition firstAzName : Output Value :=
  Resolved (match sort azNames with
            | first :: _ => VStr first
            | [] => VUndefined
            end).

Definition rdsCluster : Resource Var :=
  {| ty := TY aws "rds.Cluster";
     name := project +:+ "-rds-cluster-" +:+ stack;
     mode := Create;
     args := [("clusterIdentifierPrefix", Str (project +:+ "-rds-cluster-" +:+ stack));
              ("availabilityZones", Arr [Promise firstAzName]);
              ("dbSubnetGroupName", Ref RdsSubnetGroup ["name"]);
              ("vpcSecurityGroupIds", Arr [Ref RdsSecurityGroup ["id"]]);
              ("preferredMaintenanceWindow", Str "sun:00:00-sun:00:30");
              ("preferredBackupWindow", Str "01:00-05:00");
              ("backupRetentionPeriod", Num 35);
              ("iamDatabaseAuthenticationEnabled", Bool true);
              ("storageEncrypted", Bool true);
              ("engine", Str "aurora-postgresql");
              ("engineMode", Str "provisioned");
              ("engineVersion", Str "16.1");
              ("databaseName", Str "exampledb");
              ("masterUsername", Str "example");
              ("masterPassword", Ref RdsInstanceMasterPassword ["result"]);
              ("skipFinalSnapshot", Bool true);
              ("serverlessv2ScalingConfiguration",
                Obj [("minCapacity", Ratio 1 2); ("maxCapacity", Num 1)]);
              ("deletionProtection", Bool (String.eqb stack "prod"))];
     opts := options (Some Provider) [] None ["availabilityZones"];
     within := None |}.

Definition rdsInstance : Resource Var :=
  {| ty := TY aws "rds.ClusterInstance";
     name := project +:+ "-rds-cluster-instance-" +:+ stack;
     mode := Create;
     args := [("identifierPrefix",
                Str (project +:+ "-rds-cluster-instance-" +:+ stack));
              ("clusterIdentifier", Ref RdsCluster ["id"]);
              ("dbSubnetGroupName", Ref RdsSubnetGroup ["name"]);
              ("instanceClass", Str "db.serverless");
              ("engine", Ref RdsCluster ["engine"]);
              ("engineVersion", Ref RdsCluster ["engineVersion"]);
              ("performanceInsightsEnabled", Bool true);
              ("performanceInsightsRetentionPeriod", Num 7);
              ("publiclyAccessible", Bool true)];
     opts := with_provider Provider;
     within := None |}.

(** The module body, statement by statement.  The DKIM records are declared
    by a callback that runs once the tokens are known; they are listed at
    the place of the [apply] call. *)
Definition program : Prog Var unit :=
  new AwsMainStack (reference awsMainStack) ;;;
  region <- attempt (require cfg "aws" "region") ;;
  new Provider (provider region) ;;;
  cfZoneId <- attempt (require cfg "shared" "cfZoneId") ;;
  new CloudflareZone (cloudflareZone cfZoneId) ;;;
  new SesDomainIdentity sesDomainIdentity ;;;
  new SesDomainDkim sesDomainDkim ;;;
  for_each (imap pair dkimTokens)
    (fun '(index, token) =>
       new (SesDomainDkimRecords index) (sesDomainDkimRecord index token)) ;;;
  new SesRecordVerificationRecord sesRecordVerificationRecord ;;;
  new SesDomainVerification sesDomainVerification ;;;
  new Certificate certificate ;;;
  new CertificateValidation certificateValidation ;;;
  new CertificateValidationRecord certificateValidationRecord ;;;
  new Vpc vpc ;;;
  new LoadBalancerSecurityGroup loadBalancerSecurityGroup ;;;
  new LoadBalancer loadBalancer ;;;
  new Listener listener ;;;
  new EcsCluster ecsCluster ;;;
  new RdsSecurityGroup rdsSecurityGroup ;;;
  new RdsSubnetGroup rdsSubnetGroup ;;;
  new RdsInstanceMasterPassword rdsInstanceMasterPassword ;;;
  new RdsCluster rdsCluster ;;;
  new RdsInstance rdsInstance.

(** The declarations of a run, up to the statement that throws if one does. *)
Definition declarations : list (Var * Resource Var) := fst (exec program).

(** The declarations of a run whose configuration sets [aws:region] and
    [shared:cfZoneId]. *)
Definition declared (region cfZoneId : string) : list (Var * Resource Var) :=
  [(AwsMainStack, reference awsMainStack);
   (Provider, provider region);
   (CloudflareZone, cloudflareZone cfZoneId);
   (SesDomainIdentity, sesDomainIdentity);
   (SesDomainDkim, sesDomainDkim)]
  ++ imap (fun index token => (SesDomainDkimRecords index, sesDomainDkimRecord index token))
       dkimTokens
  ++ [(SesRecordVerificationRecord, sesRecordVerificationRecord);
      (SesDomainVerification, sesDomainVerification);
      (Certificate, certificate);
      (CertificateValidation, certificateValidation);
      (CertificateValidationRecord, certificateValidationRecord);
      (Vpc, vpc);
      (LoadBalancerSecurityGroup, loadBalancerSecurityGroup);
      (LoadBalancer, loadBalancer);
      (Listener, listener);
      (EcsCluster, ecsCluster);
      (RdsSecurityGroup, rdsSecurityGroup);
      (RdsSubnetGroup, rdsSubnetGroup);
      (RdsInstanceMasterPassword, rdsInstanceMasterPassword);
      (RdsCluster, rdsCluster);
      (RdsInstance, rdsInstance)].

(** The declaration of each variable in such a run. *)
Definition resource (region cfZoneId : string) (v : Var) : option (Resource Var) :=
  match v with
  | AwsMainStack => Some (reference awsMainStack)
  | Provider => Some (provider region)
  | CloudflareZone => Some (cloudflareZone cfZoneId)
  | SesDomainIdentity => Some sesDomainIdentity
  | SesDomainDkim => Some sesDomainDkim
  | SesDomainDkimRecords index => sesDomainDkimRecord index <$> dkimTokens !! index
  | SesRecordVerificationRecord => Some sesRecordVerificationRecord
  | SesDomainVerification => Some sesDomainVerification
  | Certificate => Some certificate
  | CertificateValidation => Some certificateValidation
  | CertificateValidationRecord => Some certificateValidationRecord
  | Vpc => Some vpc
  | LoadBalancerSecurityGroup => Some loadBalancerSecurityGroup
  | LoadBalancer => Some loadBalancer
  | Listener => Some listener
  | EcsCluster => Some ecsCluster
  | RdsSecurityGroup => Some rdsSecurityGroup
  | RdsSubnetGroup => Some rdsSubnetGroup
  | RdsInstanceMasterPassword => Some rdsInstanceMasterPassword
  | RdsCluster => Some rdsCluster
  | RdsInstance => Some rdsInstance
  end.

End Program.

(** The stack of the shared project for an environment. *)
Definition stackName (stack : string) : string := "example/shared/" +:+ stack.

(** The stages of the DNS and certificate validation chain that are
    resources, in order; the verification token is an output of the first. *)
Definition chain : list Var :=
  [SesDomainIdentity; SesRecordVerificationRecord; SesDomainVerification;
   Certificate; CertificateValidationRecord; CertificateValidation].

End Shared.

(** [name.toLocaleLowerCase()] on the letters A to Z. *)
Definition lower_ascii (c : ascii) : ascii :=
  let n := nat_of_ascii c in
  if (65 <=? n)%nat && (n <=? 90)%nat then ascii_of_nat (n + 32) else c.

Fixpoint toLocaleLowerCase (s : string) : string :=
  match s with
  | EmptyString => EmptyString
  | String c rest => String (lower_ascii c) (toLocaleLowerCase rest)
  end.

(** * The service project (api) *)

Module Api.

Inductive Var : Type :=
| AwsMainStack
| Shared
| Provider
| SecretParameter (index : nat)
| TargetGroup
| ListenerRule
| Repository
| Image
| ExecutionRole
| SsmPolicyAttachment
| TaskExecutionPolicyAttachment
| SecurityGroup
| AppService
| AppDomainRecord.

#[global] Instance Var_eq_dec : EqDecision Var.
Proof. solve_decision. Defined.

Section Program.
Variables (project stack : string) (cfg : Config) (backend : Backend).

Definition awsMainStack : StackReference :=
  newStackReference backend "example/aws/prod".

Definition shared : StackReference :=
  newStackReference backend ("example/shared/" +:+ stack).

Definition vpc : Output Value := getOutput shared "vpc".
Definition ecsCluster : Output Value := getOutput shared "ecsCluster".
Definition cloudflareZone : Output Value := getOutput shared "cloudflareZone".
Definition loadBalancer : Output Value := getOutput shared "loadBalancer".
Definition listener : Output Value := getOutput shared "listener".

Definition provider : Resource Var :=
  {| ty := TY aws "Provider";
     name := "scoped-provider";
     mode := Create;
     args := [("region", Str "eu-west-2");
              ("allowedAccountIds",
                Arr [Out AwsMainStack
                       (apply (requireOutput awsMainStack "accounts")
                          (fun accounts => props accounts [stack; "id"]))]);
              ("assumeRole",
                Obj [("roleArn",
                       Out AwsMainStack
                         (apply (requireOutput awsMainStack "accounts")
                            (fun accounts => props accounts [stack; "arn"])))])];
     opts := no_opts;
     within := None |}.

Definition secrets (exampleSecret : string) : list (string * Input Var) :=
  [("EXAMPLE_SECRET", Secret exampleSecret)].

Definition envs : list (string * Input Var) :=
  [("NODE_ENV", Str "production")].

Definition createSecret (index : nat) (secret : string * Input Var) : Resource Var :=
  let '(name, value) := secret in
  {| ty := TY aws "ssm.Parameter";
     name := project +:+ "-" +:+ toLocaleLowerCase name +:+ "-" +:+ stack;
     mode := Create;
     args := [("type", Str "SecureString"); ("value", value)];
     opts := with_provider Provider;
     within := None |}.

(** What [createSecret] returns: [{ name, valueFrom: secret.arn }]. *)
Definition secretAsArn (index : nat) (secret : string * Input Var) : Input Var :=
  Obj [("name", Str (fst secret)); ("valueFrom", Ref (SecretParameter index) ["arn"])].

(** [Object.fromEntries(envs.map((env) => [env.name, env.value]))] *)
Definition args_ : Input Var := Obj envs.

Definition secretAsArns (exampleSecret : string) : list (Input Var) :=
  imap secretAsArn (secrets exampleSecret).

Definition targetGroup : Resource Var :=
  {| ty := TY aws "lb.TargetGroup";
     name := project +:+ "-tg-" +:+ stack;
     mode := Create;
     args := [("vpcId", Out Shared (apply vpc (fun vpc => prop vpc "vpcId")));
              ("targetType", Str "ip");
              ("port", Num 3000);
              ("protocol", Str "HTTP");
              ("healthCheck", Obj [("path", Str "/healthcheck")])];
     opts := with_provider Provider;
     within := None |}.

Definition listenerRule (domain : string) : Resource Var :=
  {| ty := TY aws "lb.ListenerRule";
     name := project +:+ "-listener-" +:+ stack;
     mode := Create;
     args := [("listenerArn", Out Shared (apply listener (fun l => prop l "arn")));
              ("actions",
                Arr [Obj [("type", Str "forward");
                          ("targetGroupArn", Ref TargetGroup ["arn"])]]);
              ("conditions",
                Arr [Obj [("hostHeader", Obj [("values", Arr [Str domain])])]])];
     opts := with_provider Provider;
     within := None |}.

Definition repository : Resource Var :=
  {| ty := TY awsx "ecr.Repository";
     name := project +:+ "-repository-" +:+ stack;
     mode := Create;
     args := [("forceDelete", Bool true)];
     opts := with_provider Provider;
     within := None |}.

Definition image : Resource Var :=
  {| ty := TY awsx "ecr.Image";
     name := project +:+ "-image-" +:+ stack;
     mode := Create;
     args := [("repositoryUrl", Ref Repository ["url"]);
              ("dockerfile", Str "Dockerfile.api");
              ("context", Str ".");
              ("platform", Str "linux/amd64");
              ("args", args_)];
     opts := with_provider Provider;
     within := None |}.

Definition executionRole : Resource Var :=
  {| ty := TY aws "iam.Role";
     name := project +:+ "-task-execution-role-" +:+ stack;
     mode := Create;
     args := [("assumeRolePolicy",
                Call "aws.iam.assumeRolePolicyForPrincipal"
                  [Obj [("Service", Str "ecs-tasks.amazonaws.com")]])];
     opts := with_provider Provider;
     within := None |}.

Definition ssmPolicyAttachment : Resource Var :=
  {| ty := TY aws "iam.RolePolicyAttachment";
     name := project +:+ "-ssm-role-policy-attachment-" +:+ stack;
     mode := Create;
     args := [("role", Res ExecutionRole);
              ("policyArn", Call "aws.iam.ManagedPolicy.AmazonSSMReadOnlyAccess" [])];
     opts := with_provider Provider;
     within := None |}.

Definition taskExecutionPolicyAttachment : Resource Var :=
  {| ty := TY aws "iam.RolePolicyAttachment";
     name := project +:+ "-ecs-role-policy-attachment-" +:+ stack;
     mode := Create;
     args := [("role", Res ExecutionRole);
              ("policyArn",
                Call "aws.iam.ManagedPolicy.AmazonECSTaskExecutionRolePolicy" [])];
     opts := with_provider Provider;
     within := None |}.

Definition securityGroup : Resource Var :=
  {| ty := TY aws "ec2.SecurityGroup";
     name := project +:+ "-sg-" +:+ stack;
     mode := Create;
     args := [("vpcId", Out Shared (apply vpc (fun vpc => prop vpc "vpcId")));
              ("egress",
                Arr [Obj [("fromPort", Num 0); ("toPort", Num 0); ("protocol", Str "-1");
                          ("cidrBlocks", Arr [Str "0.0.0.0/0"]);
                          ("ipv6CidrBlocks", Arr [Str "::/0"])]]);
              ("ingress",
                Arr [Obj [("fromPort", Num 0); ("toPort", Num 0); ("protocol", Str "-1");
                          ("cidrBlocks", Arr [Str "0.0.0.0/0"]);
                          ("ipv6CidrBlocks", Arr [Str "::/0"])]])];
     opts := with_provider Provider;
     within := None |}.

Definition appService (exampleSecret : string) : Resource Var :=
  {| ty := TY awsx "ecs.FargateService";
     name := project +:+ "-service-" +:+ stack;
     mode := Create;
     args := [("cluster", Out Shared (apply ecsCluster (fun cluster => prop cluster "arn")));
              ("networkConfiguration",
                Obj [("subnets",
                       Out Shared (apply vpc (fun vpc => prop vpc "privateSubnetIds")));
                     ("securityGroups", Arr [Ref SecurityGroup ["id"]])]);
              ("desiredCount", Num 1);
              ("taskDefinitionArgs",
                Obj [("executionRole", Obj [("roleArn", Ref ExecutionRole ["arn"])]);
                     ("runtimePlatform", Obj [("cpuArchitecture", Str "X86_64")]);
                     ("container",
                       Obj [("healthCheck",
                              Obj [("command",
                                     Arr [Str "CMD-SHELL";
                                          Str "curl -f http://localhost:3000/healthcheck || exit 1"])]);
                            ("environment",
                              Arr (map (fun env =>
                                     Obj [("name", Str (fst env)); ("value", snd env)]) envs));
                            ("secrets", Arr (secretAsArns exampleSecret));
                            ("name", Str (project +:+ "-" +:+ stack +:+ "-api"));
                            ("image", Ref Image ["imageUri"]);
                            ("cpu", Num 128);
                            ("memory", Num 512);
                            ("essential", Bool true);
                            ("portMappings",
                              Arr [Obj [("hostPort", Num 3000);
                                        ("containerPort", Num 3000);
                                        ("targetGroup", Res TargetGroup)]])])])];
     opts := with_provider Provider;
     within := None |}.

Definition appDomainRecord : Resource Var :=
  {| ty := TY cf "Record";
     name := project +:+ "-" +:+ stack +:+ "-api-domain-record";
     mode := Create;
     args := [("name", Str "api");
              ("zoneId", Out Shared (apply cloudflareZone (fun zone => prop zone "id")));
              ("type", Str "CNAME");
              ("value", Out Shared (apply loadBalancer (fun lb => prop lb "dnsName")));
              ("ttl", Num 1);
              ("proxied", Bool true)];
     opts := no_opts;
     within := None |}.

Definition program : Prog Var unit :=
  new AwsMainStack (reference awsMainStack) ;;;
  new Shared (reference shared) ;;;
  new Provider provider ;;;
  domain <- attempt (require cfg "api" "domain") ;;
  exampleSecret <- attempt (require cfg "api" "EXAMPLE_SECRET") ;;
  for_each (imap pair (secrets exampleSecret))
    (fun '(index, secret) => new (SecretParameter index) (createSecret index secret)) ;;;
  new TargetGroup targetGroup ;;;
  new ListenerRule (listenerRule domain) ;;;
  new Repository repository ;;;
  new Image image ;;;
  new ExecutionRole executionRole ;;;
  new SsmPolicyAttachment ssmPolicyAttachment ;;;
  new TaskExecutionPolicyAttachment taskExecutionPolicyAttachment ;;;
  new SecurityGroup securityGroup ;;;
  new AppService (appService exampleSecret) ;;;
  new AppDomainRecord appDomainRecord.

(** The declarations of a run, up to the statement that throws if one does. *)
Definition declarations : list (Var * Resource Var) := fst (exec program).

(** The declarations of a run whose configuration sets [api:domain] and
    [api:EXAMPLE_SECRET]. *)
Definition declared (domain exampleSecret : string) : list (Var * Resource Var) :=
  [(AwsMainStack, reference awsMainStack);
   (Shared, reference shared);
   (Provider, provider);
   (SecretParameter 0, createSecret 0 ("EXAMPLE_SECRET", Secret exampleSecret));
   (TargetGroup, targetGroup);
   (ListenerRule, listenerRule domain);
   (Repository, repository);
   (Image, image);
   (ExecutionRole, executionRole);
   (SsmPolicyAttachment, ssmPolicyAttachment);
   (TaskExecutionPolicyAttachment, taskExecutionPolicyAttachment);
   (SecurityGroup, securityGroup);
   (AppService, appService exampleSecret);
   (AppDomainRecord, appDomainRecord)].

End Program.
End Api.

(** * Properties of a program's declarations *)

Section Properties.
Context {V : Type} `{!EqDecision V}.

(** Every resource the program creates, the provider [p] apart, is created
    through [p]. *)
Definition through_scoped_provider (p : V) (ds : list (V * Resource V)) : Prop :=
  forall v r, (v, r) ∈ ds -> mode r = Create -> v <> p -> provider_of r = Some p.

(** The resources of the cloud account: those of the [aws] and [awsx]
    packages. *)
Definition in_account (r : Resource V) : bool :=
  match pkg (ty r) with aws | awsx => true | _ => false end.

(** The construction of the provider [p] fails, and the creation of every
    other resource of the program waits for [p]. *)
Definition fails_before_any_creation (p : V) (ds : list (V * Resource V)) : Prop :=
  (exists r e, decl ds p = Some r /\ rejection (Obj (args r)) = Some e)
  /\ (forall v r, decl ds v = Some r -> mode r = Create -> v <> p -> gated_on ds v p).

(** Every stage of [stages] is gated on the stage before it. *)
Definition each_stage_gated (ds : list (V * Resource V)) (stages : list V) : Prop :=
  forall i a b, stages !! i = Some a -> stages !! (S i) = Some b -> gated_on ds b a.

End Properties.

(** * Secret values in a declaration *)

Section Secrets.
Context {V : Type}.


(** The identity of a resource for the engine: its class and its name. *)
Definition urn (r : Resource V) : ResourceType * string := (ty r, name r).

End Secrets.

(** * What the projects publish and read *)

Module Exports.

(** The [export const] declarations of the shared program that are
    resources, by name. *)
Definition shared : list (string * Shared.Var) :=
  [("provider", Shared.Provider);
   ("cloudflareZone", Shared.CloudflareZone);
   ("certificate", Shared.Certificate);
   ("vpc", Shared.Vpc);
   ("loadBalancer", Shared.LoadBalancer);
   ("listener", Shared.Listener);
   ("ecsCluster", Shared.EcsCluster);
   ("rdsCluster", Shared.RdsCluster);
   ("rdsInstance", Shared.RdsInstance)].

(** The outputs the service program reads from the shared stack, each with
    the class its declaration gives it ([OutputInstance<Vpc>], ...). *)
Definition read_by_api : list (string * ResourceType) :=
  [("vpc", TY awsx "ec2.Vpc");
   ("ecsCluster", TY aws "ecs.Cluster");
   ("cloudflareZone", TY cf "Zone");
   ("loadBalancer", TY aws "lb.LoadBalancer");
   ("listener", TY aws "lb.Listener")].

End Exports.

(** * Scenarios *)

Module Scenario.

(** Scenario 1: the accounts mapping [{dev: {id: "111", arn: "role-dev"}}]. *)
Definition accounts1 : gmap string Aws.Account :=
  {[ "dev" := {| Aws.id := "111"; Aws.arn := "role-dev" |} ]}.

Definition backend1 : Backend :=
  {[ Aws.stackName := {[ "accounts" := VObj (Aws.account_value <$> accounts1) ]} ]}.

(** The account project deployed with account identifier 111, and the
    configuration of the shared and service stacks. *)
Definition backend : Backend := {[ Aws.stackName := Aws.outputs "111" ]}.

Definition cfg : Config :=
  {[ "aws:region" := "eu-west-2";
     "shared:cfZoneId" := "zone-1";
     "api:domain" := "api.example.com";
     "api:EXAMPLE_SECRET" := "secret" ]}.



End Scenario.

(** * The engine and the reference graph *)

Section Engine.
Context {V : Type} `{!EqDecision V}.
Implicit Types (ds : list (V * Resource V)) (log : list (V * Outcome)).

Lemma outcome_app log log' v :
  outcome (log ++ log') v
  = match outcome log v with Some oc => Some oc | None => outcome log' v end.
Proof.
  induction log as [|[u oc] log IH]; simpl; [done|].
  destruct (decide (u = v)); [done|apply IH].
Qed.

Lemma decl_app ds ds' v :
  decl (ds ++ ds') v
  = match decl ds v with Some r => Some r | None => decl ds' v end.
Proof.
  induction ds as [|[u r] ds IH]; simpl; [done|].
  destruct (decide (u = v)); [done|apply IH].
Qed.

Lemma decl_elem_of ds v r : decl ds v = Some r -> (v, r) ∈ ds.
Proof.
  induction ds as [|[u r'] ds IH]; simpl; [done|].
  destruct (decide (u = v)) as [->|_].
  - intros [= ->]. left.
  - intros H. right. auto.
Qed.

Lemma run_snoc ds d : run (ds ++ [d]) = register (run ds) d.
Proof. unfold run. by rewrite fold_left_app. Qed.

Lemma run_app ds ds' : run (ds ++ ds') = fold_left register ds' (run ds).
Proof. unfold run. by rewrite fold_left_app. Qed.

(** The log lists exactly the declared variables. *)
Lemma outcome_None ds v : outcome (run ds) v = None <-> decl ds v = None.
Proof.
  induction ds as [|[u r] ds IH] using rev_ind; [done|].
  rewrite run_snoc, decl_app. unfold register. rewrite outcome_app. simpl.
  destruct (outcome (run ds) v) eqn:Ho, (decl ds v) eqn:Hd.
  - done.
  - destruct IH as [_ IH]. by specialize (IH eq_refl).
  - destruct IH as [IH _]. by specialize (IH eq_refl).
  - by destruct (decide (u = v)).
Qed.

(** An outcome, once logged, stays. *)
Lemma outcome_mono ds ds' v oc :
  outcome (run ds) v = Some oc -> outcome (run (ds ++ ds')) v = Some oc.
Proof.
  revert ds. induction ds' as [|d ds' IH]; intros ds H.
  - by rewrite app_nil_r.
  - replace (ds ++ d :: ds') with ((ds ++ [d]) ++ ds') by by rewrite <- app_assoc.
    apply IH. rewrite run_snoc. destruct d as [u r]. unfold register.
    rewrite outcome_app. by rewrite H.
Qed.

Lemma available_mono ds ds' v :
  available (run ds) v = true -> available (run (ds ++ ds')) v = true.
Proof.
  unfold available. destruct (outcome (run ds) v) as [oc|] eqn:H; [|done].
  by rewrite (outcome_mono _ ds' _ _ H).
Qed.

(** What the engine has checked for a variable it made available. *)
Lemma settled_inv ds v oc :
  outcome (run ds) v = Some oc -> settled oc = true ->
  exists r, decl ds v = Some r
    /\ rejection (Obj (args r)) = None
    /\ (forall u, u ∈ deps r -> available (run ds) u = true)
    /\ oc = match mode r with Create => Created | Read => WasRead end.
Proof.
  revert oc. induction ds as [|[u r] ds IH] using rev_ind; intros oc; [done|].
  rewrite decl_app, run_snoc. unfold register at 1. rewrite outcome_app. simpl.
  destruct (outcome (run ds) v) as [oc'|] eqn:Ho.
  - intros [= ->] Hs. destruct (IH _ eq_refl Hs) as (r' & Hd & Hr & Hdeps & Hoc).
    exists r'. rewrite Hd. split_and!; [done..| |done].
    intros w Hw. rewrite <- run_snoc. by apply available_mono, Hdeps.
  - apply outcome_None in Ho. rewrite Ho. simpl.
    destruct (decide (u = v)) as [->|]; [|done].
    unfold judge.
    destruct (forallb (available (run ds)) (deps r)) eqn:Hall; [|by intros [= <-]].
    destruct (rejection (Obj (args r))) as [e|] eqn:Hrej; [by intros [= <-]|].
    intros [= <-] _. exists r. split_and!; [done..| |done].
    intros w Hw. rewrite <- run_snoc. apply available_mono.
    rewrite forallb_forall in Hall. apply Hall. by apply list_elem_of_In.
Qed.

Lemma available_inv ds v :
  available (run ds) v = true ->
  exists r, decl ds v = Some r
    /\ rejection (Obj (args r)) = None
    /\ (forall u, u ∈ deps r -> available (run ds) u = true).
Proof.
  unfold available. destruct (outcome (run ds) v) as [oc|] eqn:Ho; [|done].
  intros Hs. destruct (settled_inv _ _ _ Ho Hs) as (r & ? & ? & ? & _). eauto.
Qed.

Lemma elem_of_created ds v :
  v ∈ created ds <-> outcome (run ds) v = Some Created.
Proof.
  unfold created. rewrite list_elem_of_In, filter_In, <- list_elem_of_In.
  unfold is_created. split.
  - intros [_ H]. by destruct (outcome (run ds) v) as [[]|].
  - intros H. rewrite H. split; [|done].
    destruct (decl ds v) as [r|] eqn:Hd.
    + apply decl_elem_of in Hd. apply list_elem_of_fmap. by exists (v, r).
    + apply outcome_None in Hd. congruence.
Qed.

(** A created resource was declared with [new], none of its deferred
    arguments was rejected, and all it depends on was available. *)
Lemma created_inv ds v :
  v ∈ created ds ->
  exists r, decl ds v = Some r
    /\ mode r = Create
    /\ rejection (Obj (args r)) = None
    /\ (forall u, u ∈ deps r -> available (run ds) u = true).
Proof.
  rewrite elem_of_created. intros Ho.
  destruct (settled_inv _ _ _ Ho eq_refl) as (r & Hd & Hr & Hdeps & Hoc).
  exists r. split_and!; try done. by destruct (mode r).
Qed.

(** A resource is never available while something it names is not. *)
Lemma blocked_by ds v u :
  direct ds v u -> available (run ds) u = false -> available (run ds) v = false.
Proof.
  intros (r & Hd & Hin) Hu.
  destruct (available (run ds) v) eqn:Hv; [|done].
  destruct (available_inv _ _ Hv) as (r' & Hd' & _ & Hdeps).
  rewrite Hd in Hd'. injection Hd' as <-. rewrite (Hdeps _ Hin) in Hu. done.
Qed.

(** The reference graph gates the engine: what is gated on an unavailable
    resource is not available either, hence never created. *)
Lemma gated_blocked ds v u :
  gated_on ds v u -> available (run ds) u = false -> available (run ds) v = false.
Proof.
  induction 1 as [v u H|v w u H Hwu IH]; intros Hu.
  - by eapply blocked_by.
  - eapply blocked_by; [done|]. by apply IH.
Qed.

Lemma gated_not_created ds v u :
  gated_on ds v u -> available (run ds) u = false -> v ∉ created ds.
Proof.
  intros Hg Hu Hc. apply elem_of_created in Hc.
  pose proof (gated_blocked _ _ _ Hg Hu) as Hv.
  unfold available in Hv. by rewrite Hc in Hv.
Qed.

Lemma direct_deps_spec ds v u : direct ds v u <-> u ∈ direct_deps ds v.
Proof.
  unfold direct, direct_deps. split.
  - intros (r & -> & H). done.
  - destruct (decl ds v) as [r|]; [eauto|]. by intros ?%elem_of_nil.
Qed.

(** Everything [v] is gated on lies in a list that holds the direct
    dependencies of [v] and is closed under direct dependencies. *)
Lemma closed_from_sound ds v S u :
  closed_from ds v S = true -> gated_on ds v u -> u ∈ S.
Proof.
  unfold closed_from. rewrite andb_true_iff, !forallb_forall.
  intros [Hv HS] Hg. revert Hg.
  assert (Hstep : forall x y, x = v \/ x ∈ S -> direct ds x y -> y ∈ S).
  { intros x y Hx Hd. apply direct_deps_spec, list_elem_of_In in Hd.
    destruct Hx as [->|Hx].
    - eapply bool_decide_eq_true_1, Hv, Hd.
    - apply list_elem_of_In in Hx. specialize (HS _ Hx).
      rewrite forallb_forall in HS. eapply bool_decide_eq_true_1, HS, Hd. }
  assert (Hall : forall x, x = v \/ x ∈ S -> gated_on ds x u -> u ∈ S).
  { intros x Hx Hgx. revert Hx.
    induction Hgx as [x y H|x y z H Hyz IH]; intros Hx.
    - exact (Hstep x y Hx H).
    - exact (IH (or_intror (Hstep x y Hx H))). }
  apply (Hall v); auto.
Qed.

End Engine.

(** * What the programs declare *)

Lemma for_each_new_from {V A : Type} (h : nat -> A -> V * Resource V)
    (body : nat * A -> Prog V unit) (g : nat -> nat) (xs : list A) ds :
  (forall i x, body (i, x) = new (fst (h i x)) (snd (h i x))) ->
  for_each (imap (fun i x => (g i, x)) xs) body ds
  = (ds ++ imap (fun i x => h (g i) x) xs, inr tt).
Proof.
  intros Hbody. revert g ds. induction xs as [|x xs IH]; intros g ds; simpl.
  - unfold ret. by rewrite app_nil_r.
  - unfold bind. rewrite Hbody. unfold new.
    specialize (IH (g ∘ S) (ds ++ [h (g 0) x])). simpl in IH.
    unfold compose in *. rewrite <- surjective_pairing.
    rewrite IH. by rewrite <- app_assoc.
Qed.

Lemma for_each_new {V A : Type} (h : nat -> A -> V * Resource V)
    (body : nat * A -> Prog V unit) (xs : list A) ds :
  (forall i x, body (i, x) = new (fst (h i x)) (snd (h i x))) ->
  for_each (imap pair xs) body ds = (ds ++ imap h xs, inr tt).
Proof. intros H. exact (for_each_new_from h body id xs ds H). Qed.

Lemma require_Some cfg ns key v :
  cfg !! (ns +:+ ":" +:+ key) = Some v -> require cfg ns key = inr v.
Proof. unfold require. by intros ->. Qed.

Lemma require_None cfg ns key :
  cfg !! (ns +:+ ":" +:+ key) = None ->
  require cfg ns key = inl (MissingRequiredConfig (ns +:+ ":" +:+ key)).
Proof. unfold require. by intros ->. Qed.

(** With its two configuration keys set the shared program runs to its end
    and declares the resources of [Shared.declared]. *)
Lemma shared_program_declares project stack cfg backend dkimTokens azNames
    region cfZoneId :
  cfg !! "aws:region" = Some region ->
  cfg !! "shared:cfZoneId" = Some cfZoneId ->
  exec (Shared.program project stack cfg backend dkimTokens azNames)
  = (Shared.declared project stack backend dkimTokens azNames region cfZoneId, inr tt).
Proof.
  intros Hr Hz. unfold exec, Shared.program, Shared.declared, bind, new, attempt.
  rewrite (require_Some cfg "aws" "region" region Hr).
  rewrite (require_Some cfg "shared" "cfZoneId" cfZoneId Hz). simpl.
  erewrite (for_each_new
    (fun index token => (Shared.SesDomainDkimRecords index,
                         Shared.sesDomainDkimRecord project stack index token)));
    [|done].
  simpl. by rewrite <- !app_assoc.
Qed.

(** A run of the shared program declares a prefix of [Shared.declared]
    whatever its configuration. *)
Lemma shared_declarations_cases project stack cfg backend dkimTokens azNames :
  let ds := Shared.declarations project stack cfg backend dkimTokens azNames in
  ds = [(Shared.AwsMainStack, reference (Shared.awsMainStack backend))]
  \/ (exists region,
        ds = [(Shared.AwsMainStack, reference (Shared.awsMainStack backend));
              (Shared.Provider, Shared.provider stack backend region)])
  \/ (exists region cfZoneId,
        ds = Shared.declared project stack backend dkimTokens azNames region cfZoneId).
Proof.
  simpl. unfold Shared.declarations.
  destruct (cfg !! "aws:region") as [region|] eqn:Hr.
  - destruct (cfg !! "shared:cfZoneId") as [cfZoneId|] eqn:Hz.
    + right; right. exists region, cfZoneId.
      by rewrite (shared_program_declares _ _ _ _ _ _ _ _ Hr Hz).
    + right; left. exists region.
      unfold exec, Shared.program, bind, new, attempt.
      rewrite (require_Some cfg "aws" "region" region Hr).
      by rewrite (require_None cfg "shared" "cfZoneId" Hz).
  - left. unfold exec, Shared.program, bind, new, attempt.
    by rewrite (require_None cfg "aws" "region" Hr).
Qed.

Lemma api_program_declares project stack cfg backend domain exampleSecret :
  cfg !! "api:domain" = Some domain ->
  cfg !! "api:EXAMPLE_SECRET" = Some exampleSecret ->
  exec (Api.program project stack cfg backend)
  = (Api.declared project stack backend domain exampleSecret, inr tt).
Proof.
  intros Hd Hs. unfold exec, Api.program, Api.declared, bind, new, attempt.
  rewrite (require_Some cfg "api" "domain" domain Hd).
  by rewrite (require_Some cfg "api" "EXAMPLE_SECRET" exampleSecret Hs).
Qed.

Lemma api_declarations_cases project stack cfg backend :
  let ds := Api.declarations project stack cfg backend in
  ds = [(Api.AwsMainStack, reference (Api.awsMainStack backend));
        (Api.Shared, reference (Api.shared stack backend));
        (Api.Provider, Api.provider stack backend)]
  \/ (exists domain exampleSecret,
        ds = Api.declared project stack backend domain exampleSecret).
Proof.
  simpl. unfold Api.declarations.
  destruct (cfg !! "api:domain") as [domain|] eqn:Hd.
  - destruct (cfg !! "api:EXAMPLE_SECRET") as [exampleSecret|] eqn:Hs.
    + right. exists domain, exampleSecret.
      by rewrite (api_program_declares _ _ _ _ _ _ Hd Hs).
    + left. unfold exec, Api.program, bind, new, attempt.
      rewrite (require_Some cfg "api" "domain" domain Hd).
      by rewrite (require_None cfg "api" "EXAMPLE_SECRET" Hs).
  - left. unfold exec, Api.program, bind, new, attempt.
    by rewrite (require_None cfg "api" "domain" Hd).
Qed.

Lemma decl_dkim_records project stack tokens (k : nat) v :
  decl (imap (fun i token =>
                (Shared.SesDomainDkimRecords (k + i),
                 Shared.sesDomainDkimRecord project stack (k + i) token)) tokens) v
  = match v with
    | Shared.SesDomainDkimRecords index =>
        if decide (k <= index)
        then Shared.sesDomainDkimRecord project stack index <$> tokens !! (index - k)
        else None
    | _ => None
    end.
Proof.
  revert k. induction tokens as [|token tokens IH]; intros k.
  - destruct v; try done. cbn [imap decl]. by case_decide.
  - cbn [imap decl].
    destruct (decide (Shared.SesDomainDkimRecords (k + 0) = v)) as [<-|Hne].
    + destruct (decide (k <= k + 0)); [|exfalso; lia].
      rewrite !Nat.add_0_r, Nat.sub_diag. reflexivity.
    + unfold compose.
      rewrite (imap_ext _ (fun i token =>
                 (Shared.SesDomainDkimRecords (S k + i),
                  Shared.sesDomainDkimRecord project stack (S k + i) token)));
        [|by intros i x _; simpl; rewrite Nat.add_succ_r].
      rewrite IH. destruct v as [| | | | |index| | | | | | | | | | | | | | |]; try done.
      assert (index <> k) by (intros ->; apply Hne; by rewrite Nat.add_0_r).
      destruct (decide (S k <= index)), (decide (k <= index));
        try (exfalso; lia); [|done].
      replace (index - k) with (S (index - S k)) by lia. done.
Qed.

Lemma shared_decl project stack backend dkimTokens azNames region cfZoneId v :
  decl (Shared.declared project stack backend dkimTokens azNames region cfZoneId) v
  = Shared.resource project stack backend dkimTokens azNames region cfZoneId v.
Proof.
  unfold Shared.declared. rewrite !decl_app.
  pose proof (decl_dkim_records project stack dkimTokens 0 v) as Hd.
  simpl in Hd. rewrite Hd. clear Hd.
  destruct v; try reflexivity.
  rewrite Nat.sub_0_r. cbn. by destruct (dkimTokens !! index).
Qed.

Lemma forallb_pointwise {A : Type} (f g : A -> bool) (l : list A) :
  (forall x, f x = g x) -> forallb f l = forallb g l.
Proof. intros H. induction l as [|x l IH]; simpl; [done|]. by rewrite H, IH. Qed.

Lemma shared_closed_from project stack backend dkimTokens azNames region cfZoneId v S :
  (forallb (fun u => bool_decide (u ∈ S))
     (match Shared.resource project stack backend dkimTokens azNames region cfZoneId v
      with Some r => deps r | None => [] end)
   && forallb (fun x => forallb (fun u => bool_decide (u ∈ S))
        (match Shared.resource project stack backend dkimTokens azNames region cfZoneId x
         with Some r => deps r | None => [] end)) S) = true ->
  closed_from (Shared.declared project stack backend dkimTokens azNames region cfZoneId)
    v S = true.
Proof.
  intros H. unfold closed_from, direct_deps. rewrite shared_decl.
  rewrite <- H. f_equal. apply forallb_pointwise. intros x. by rewrite shared_decl.
Qed.

(** * Account resolution and the scoped provider *)

Lemma props_account (accounts : gmap string Aws.Account) E account :
  accounts !! E = Some account ->
  props (VObj (Aws.account_value <$> accounts)) [E; "id"]
    = Resolved (VStr (Aws.id account))
  /\ props (VObj (Aws.account_value <$> accounts)) [E; "arn"]
    = Resolved (VStr (Aws.arn account)).
Proof.
  intros H.
  assert (Hp : prop (VObj (Aws.account_value <$> accounts)) E
               = Resolved (Aws.account_value account)).
  { cbn [prop]. by rewrite lookup_fmap, H. }
  cbn [props]. rewrite Hp. done.
Qed.

Lemma member_spec names k : member names k = true <-> k ∈ names.
Proof.
  unfold member. rewrite existsb_exists. split.
  - intros (x & Hin & Heq). apply String.eqb_eq in Heq. subst x.
    by apply list_elem_of_In.
  - intros Hin. exists k. split; [by apply list_elem_of_In|apply String.eqb_refl].
Qed.

Lemma inherited_object k :
  k ∈ objectPrototype -> inherited [] k = VNative k.
Proof. intros H. unfold inherited. cbn [app]. by apply member_spec in H as ->. Qed.

Lemma inherited_none k :
  k ∉ objectPrototype -> inherited [] k = VUndefined.
Proof.
  intros H. unfold inherited. cbn [app].
  destruct (member objectPrototype k) eqn:Hm; [|done].
  by apply member_spec in Hm.
Qed.

Lemma props_absent (accounts : gmap string Value) E k :
  accounts !! E = None -> E ∉ objectPrototype ->
  props (VObj accounts) [E; k] = Rejected (TypeError k).
Proof.
  intros H Hn.
  assert (Hp : prop (VObj accounts) E = Resolved VUndefined).
  { cbn [prop]. by rewrite H, inherited_none. }
  cbn [props]. by rewrite Hp.
Qed.

Lemma props_inherited (accounts : gmap string Value) E k :
  accounts !! E = None -> E ∈ objectPrototype ->
  props (VObj accounts) [E; k] = Resolved VUndefined.
Proof.
  intros H Hn.
  assert (Hp : prop (VObj accounts) E = Resolved (VNative E)).
  { cbn [prop]. by rewrite H, inherited_object. }
  cbn [props]. by rewrite Hp.
Qed.

Lemma getOutput_found backend name os k v :
  backend !! name = Some os -> os !! k = Some v ->
  getOutput (newStackReference backend name) k = Resolved v.
Proof.
  intros H1 H2. unfold getOutput, newStackReference. cbn [sr_outputs].
  rewrite H1. cbn [apply prop]. by rewrite H2.
Qed.

Lemma requireOutput_found backend name os k v :
  backend !! name = Some os -> os !! k = Some v ->
  requireOutput (newStackReference backend name) k = Resolved v.
Proof.
  intros H1 H2. unfold requireOutput, newStackReference. cbn [sr_outputs].
  rewrite H1. cbn [apply]. by rewrite H2.
Qed.

(** C1: for every environment name E, the scoped provider constructed from
    the account record of E has an allowed-account list that holds exactly
    the identifier of that record and assumes the role of that record, in
    the shared project and in the service project. *)
Theorem C1_scoped_provider_bound_to_account
    (E region : string) (backend : Backend) (os : gmap string Value)
    (accounts : gmap string Aws.Account) (account : Aws.Account) :
  backend !! Aws.stackName = Some os ->
  os !! "accounts" = Some (VObj (Aws.account_value <$> accounts)) ->
  accounts !! E = Some account ->
  (field "allowedAccountIds" (args (Shared.provider E backend region))
     = Some (Arr [Out Shared.AwsMainStack (Resolved (VStr (Aws.id account)))])
   /\ field "assumeRole" (args (Shared.provider E backend region))
     = Some (Obj [("roleArn",
                    Out Shared.AwsMainStack (Resolved (VStr (Aws.arn account))))]))
  /\ (field "allowedAccountIds" (args (Api.provider E backend))
     = Some (Arr [Out Api.AwsMainStack (Resolved (VStr (Aws.id account)))])
   /\ field "assumeRole" (args (Api.provider E backend))
     = Some (Obj [("roleArn",
                    Out Api.AwsMainStack (Resolved (VStr (Aws.arn account))))])).
Proof.
  intros Hb Ho HE. destruct (props_account _ _ _ HE) as [Hid Harn].
  unfold Aws.stackName in Hb.
  unfold Shared.provider, Api.provider, Shared.accounts,
    Shared.awsMainStack, Api.awsMainStack.
  rewrite (getOutput_found _ _ _ _ _ Hb Ho), (requireOutput_found _ _ _ _ _ Hb Ho).
  cbn [args field String.eqb Ascii.eqb Bool.eqb apply].
  by rewrite Hid, Harn.
Qed.

Lemma C1_witness :
  Scenario.backend1 !! Aws.stackName
    = Some {[ "accounts" := VObj (Aws.account_value <$> Scenario.accounts1) ]}
  /\ field "allowedAccountIds" (args (Shared.provider "dev" Scenario.backend1 "eu-west-2"))
    = Some (Arr [Out Shared.AwsMainStack (Resolved (VStr "111"))])
  /\ field "assumeRole" (args (Api.provider "dev" Scenario.backend1))
    = Some (Obj [("roleArn", Out Api.AwsMainStack (Resolved (VStr "role-dev")))]).
Proof.
  pose proof (C1_scoped_provider_bound_to_account "dev" "eu-west-2"
    Scenario.backend1 _ Scenario.accounts1 {| Aws.id := "111"; Aws.arn := "role-dev" |}
    eq_refl eq_refl eq_refl) as [[H1 _] [_ H2]].
  split; [reflexivity|]. split; [exact H1|exact H2].
Defined.

(** The outcome of a declaration is judged against the log of the
    declarations made before it. *)
Lemma outcome_judge {V : Type} `{!EqDecision V} (ds rest : list (V * Resource V)) v r :
  decl ds v = None ->
  outcome (run (ds ++ (v, r) :: rest)) v = Some (judge (run ds) r).
Proof.
  intros Hd. change (ds ++ (v, r) :: rest) with (ds ++ [(v, r)] ++ rest).
  rewrite app_assoc. apply outcome_mono. rewrite run_snoc. unfold register.
  rewrite outcome_app. apply outcome_None in Hd. rewrite Hd. simpl.
  by rewrite decide_True.
Qed.

(** A reference to a deployed stack is read. *)
Lemma judge_reference {V : Type} `{!EqDecision V} (log : list (V * Outcome))
    (backend : Backend) name os :
  backend !! name = Some os ->
  judge log (reference (newStackReference backend name)) = WasRead.
Proof.
  intros H. unfold judge, reference, newStackReference, deps. simpl. by rewrite H.
Qed.

Lemma shared_provider_rejected E region (backend : Backend) os
    (accounts : gmap string Value) :
  backend !! Aws.stackName = Some os ->
  os !! "accounts" = Some (VObj accounts) ->
  accounts !! E = None -> E ∉ objectPrototype ->
  field "allowedAccountIds" (args (Shared.provider E backend region))
    = Some (Arr [Out Shared.AwsMainStack (Rejected (TypeError "id"))])
  /\ rejection (Obj (args (Shared.provider E backend region))) = Some (TypeError "id").
Proof.
  intros Hb Ho HE Hn. unfold Aws.stackName in Hb.
  unfold Shared.provider, Shared.accounts, Shared.awsMainStack.
  rewrite (getOutput_found _ _ _ _ _ Hb Ho).
  cbn [args field String.eqb Ascii.eqb Bool.eqb apply].
  rewrite !props_absent by done. done.
Qed.

(** An absent name that [Object.prototype] has: the lookup finds the
    inherited member, whose [id] and [arn] are [undefined]. *)
Lemma shared_provider_inherited E region (backend : Backend) os
    (accounts : gmap string Value) :
  backend !! Aws.stackName = Some os ->
  os !! "accounts" = Some (VObj accounts) ->
  accounts !! E = None -> E ∈ objectPrototype ->
  field "allowedAccountIds" (args (Shared.provider E backend region))
    = Some (Arr [Out Shared.AwsMainStack (Resolved VUndefined)])
  /\ field "assumeRole" (args (Shared.provider E backend region))
    = Some (Obj [("roleArn", Out Shared.AwsMainStack (Resolved VUndefined))])
  /\ rejection (Obj (args (Shared.provider E backend region))) = None.
Proof.
  intros Hb Ho HE Hn. unfold Aws.stackName in Hb.
  unfold Shared.provider, Shared.accounts, Shared.awsMainStack.
  rewrite (getOutput_found _ _ _ _ _ Hb Ho).
  cbn [args field String.eqb Ascii.eqb Bool.eqb apply].
  rewrite !props_inherited by done. done.
Qed.

Lemma api_provider_inherited E (backend : Backend) os (accounts : gmap string Value) :
  backend !! Aws.stackName = Some os ->
  os !! "accounts" = Some (VObj accounts) ->
  accounts !! E = None -> E ∈ objectPrototype ->
  field "allowedAccountIds" (args (Api.provider E backend))
    = Some (Arr [Out Api.AwsMainStack (Resolved VUndefined)])
  /\ field "assumeRole" (args (Api.provider E backend))
    = Some (Obj [("roleArn", Out Api.AwsMainStack (Resolved VUndefined))])
  /\ rejection (Obj (args (Api.provider E backend))) = None.
Proof.
  intros Hb Ho HE Hn. unfold Aws.stackName in Hb.
  unfold Api.provider, Api.awsMainStack.
  rewrite (requireOutput_found _ _ _ _ _ Hb Ho).
  cbn [args field String.eqb Ascii.eqb Bool.eqb apply].
  rewrite !props_inherited by done. done.
Qed.

Lemma api_provider_rejected E (backend : Backend) os (accounts : gmap string Value) :
  backend !! Aws.stackName = Some os ->
  os !! "accounts" = Some (VObj accounts) ->
  accounts !! E = None -> E ∉ objectPrototype ->
  field "allowedAccountIds" (args (Api.provider E backend))
    = Some (Arr [Out Api.AwsMainStack (Rejected (TypeError "id"))])
  /\ rejection (Obj (args (Api.provider E backend))) = Some (TypeError "id").
Proof.
  intros Hb Ho HE Hn. unfold Aws.stackName in Hb.
  unfold Api.provider, Api.awsMainStack.
  rewrite (requireOutput_found _ _ _ _ _ Hb Ho).
  cbn [args field String.eqb Ascii.eqb Bool.eqb apply].
  rewrite !props_absent by done. done.
Qed.

(** When the accounts mapping has no entry for the stack and the stack
    does not name an inherited member, the registration of the provider
    fails with the TypeError of [accounts[stack].id]. *)
Lemma shared_provider_fails project E cfg (backend : Backend) os
    (accounts : gmap string Value) dkimTokens azNames r :
  backend !! Aws.stackName = Some os ->
  os !! "accounts" = Some (VObj accounts) ->
  accounts !! E = None -> E ∉ objectPrototype ->
  let ds := Shared.declarations project E cfg backend dkimTokens azNames in
  decl ds Shared.Provider = Some r ->
  outcome (run ds) Shared.Provider = Some (Failed (TypeError "id")).
Proof.
  intros Hb Ho HE Hn ds.
  assert (Hj : forall region,
    judge (run [(Shared.AwsMainStack, reference (Shared.awsMainStack backend))])
      (Shared.provider E backend region) = Failed (TypeError "id")).
  { intros region. unfold run. cbn [fold_left register fst snd app].
    unfold Shared.awsMainStack. rewrite (judge_reference _ _ _ _ Hb).
    unfold judge at 1.
    rewrite (proj2 (shared_provider_rejected E region _ _ _ Hb Ho HE Hn)).
    reflexivity. }
  destruct (shared_declarations_cases project E cfg backend dkimTokens azNames)
    as [H|[[region H]|(region & cfZoneId & H)]]; fold ds in H; rewrite H.
  - done.
  - intros _. rewrite <- Hj with region.
    by apply (outcome_judge
      [(Shared.AwsMainStack, reference (Shared.awsMainStack backend))] []
      Shared.Provider (Shared.provider E backend region)).
  - intros _. rewrite <- Hj with region.
    by apply (outcome_judge
      [(Shared.AwsMainStack, reference (Shared.awsMainStack backend))] _
      Shared.Provider (Shared.provider E backend region)).
Qed.

Lemma api_provider_fails project E cfg (backend : Backend) os
    (accounts : gmap string Value) :
  backend !! Aws.stackName = Some os ->
  os !! "accounts" = Some (VObj accounts) ->
  accounts !! E = None -> E ∉ objectPrototype ->
  outcome (run (Api.declarations project E cfg backend)) Api.Provider
    = Some (Failed (TypeError "id")).
Proof.
  intros Hb Ho HE Hn.
  pose (ds0 := [(Api.AwsMainStack, @reference Api.Var (Api.awsMainStack backend));
                (Api.Shared, reference (Api.shared E backend))]).
  assert (Hj : judge (run ds0) (Api.provider E backend) = Failed (TypeError "id")).
  { unfold ds0, run. cbn [fold_left register fst snd app].
    unfold Api.awsMainStack at 1. rewrite (judge_reference _ _ _ _ Hb).
    unfold judge at 1.
    rewrite (proj2 (api_provider_rejected E _ _ _ Hb Ho HE Hn)).
    reflexivity. }
  rewrite <- Hj.
  destruct (api_declarations_cases project E cfg backend)
    as [H|(domain & exampleSecret & H)]; rewrite H.
  - by apply (outcome_judge ds0 [] Api.Provider (Api.provider E backend)).
  - by apply (outcome_judge ds0 _ Api.Provider (Api.provider E backend)).
Qed.

(** ** What is gated on the scoped provider *)

Lemma shared_direct project stack backend dkimTokens azNames region cfZoneId v u r :
  Shared.resource project stack backend dkimTokens azNames region cfZoneId v = Some r ->
  u ∈ deps r ->
  direct (Shared.declared project stack backend dkimTokens azNames region cfZoneId) v u.
Proof. intros H1 H2. exists r. by rewrite shared_decl. Qed.

Ltac shared_names :=
  eapply shared_direct; [reflexivity | vm_compute; set_solver].

(** In the shared project every created resource but the provider and the
    random master password is gated on the provider. *)
Lemma shared_gated_on_provider project stack backend dkimTokens azNames
    region cfZoneId v r :
  let ds := Shared.declared project stack backend dkimTokens azNames region cfZoneId in
  decl ds v = Some r -> mode r = Create ->
  v <> Shared.Provider -> v <> Shared.RdsInstanceMasterPassword ->
  gated_on ds v Shared.Provider.
Proof.
  intros ds Hd Hm Hp Hw. unfold ds in Hd. rewrite shared_decl in Hd.
  assert (Hid : gated_on ds Shared.SesDomainIdentity Shared.Provider)
    by (apply tc_once; shared_names).
  assert (Hdkim : gated_on ds Shared.SesDomainDkim Shared.Provider)
    by (apply tc_once; shared_names).
  assert (Hcert : gated_on ds Shared.Certificate Shared.Provider)
    by (apply tc_once; shared_names).
  destruct v; simpl in Hd; simplify_eq; try done;
    try (apply tc_once; shared_names).
  - (* a DKIM record is declared by the callback on the DKIM tokens *)
    destruct (dkimTokens !! index) as [token|] eqn:Htok; simplify_eq.
    eapply tc_l; [|exact Hdkim].
    eapply shared_direct; [simpl; by rewrite Htok|].
    vm_compute; set_solver.
  - eapply tc_l; [|exact Hid]. shared_names.
  - eapply tc_l; [|exact Hcert]. shared_names.
Qed.

(** In the service project every created resource but the provider and the
    DNS record of the service is gated on the provider. *)
Lemma api_gated_on_provider project stack backend domain exampleSecret v r :
  let ds := Api.declared project stack backend domain exampleSecret in
  decl ds v = Some r -> mode r = Create ->
  v <> Api.Provider -> v <> Api.AppDomainRecord ->
  gated_on ds v Api.Provider.
Proof.
  intros ds Hd Hm Hp Hw. apply tc_once. exists r. split; [done|].
  unfold ds, Api.declared in Hd.
  destruct v as [| | |[|index]| | | | | | | | | |]; cbn in Hd; simplify_eq; try done;
    vm_compute; set_solver.
Qed.

(** A run for an environment that the accounts mapping lacks and that
    does not name an inherited member: the registration of the provider
    fails with the TypeError, and of the resources of the two projects the
    engine creates at most the random master password and the DNS record of
    the service. *)
Lemma absent_environment_run
    (project E : string) (cfg : Config) (backend : Backend)
    (os accounts : gmap string Value) (dkimTokens azNames : list string) :
  backend !! Aws.stackName = Some os ->
  os !! "accounts" = Some (VObj accounts) ->
  accounts !! E = None -> E ∉ objectPrototype ->
  let shared := Shared.declarations project E cfg backend dkimTokens azNames in
  let api := Api.declarations project E cfg backend in
  (forall r, decl shared Shared.Provider = Some r ->
     outcome (run shared) Shared.Provider = Some (Failed (TypeError "id")))
  /\ outcome (run api) Api.Provider = Some (Failed (TypeError "id"))
  /\ (forall v, v ∈ created shared -> v = Shared.RdsInstanceMasterPassword)
  /\ (forall v, v ∈ created api -> v = Api.AppDomainRecord).
Proof.
  intros Hb Ho HE Hn shared api.
  assert (Hs : forall r, decl shared Shared.Provider = Some r ->
    outcome (run shared) Shared.Provider = Some (Failed (TypeError "id"))).
  { intros r. by apply (shared_provider_fails project E cfg backend os accounts). }
  assert (Ha : outcome (run api) Api.Provider = Some (Failed (TypeError "id"))).
  { by apply (api_provider_fails project E cfg backend os accounts). }
  split_and!; [exact Hs|exact Ha| |].
  - intros v Hv. destruct (decide (v = Shared.RdsInstanceMasterPassword)); [done|].
    exfalso.
    assert (Hun : available (run shared) Shared.Provider = false).
    { unfold available. destruct (decl shared Shared.Provider) as [r|] eqn:Hd.
      - by rewrite (Hs r eq_refl).
      - apply outcome_None in Hd. by rewrite Hd. }
    destruct (created_inv _ _ Hv) as (r & Hd & Hm & _).
    destruct (decide (v = Shared.Provider)) as [->|Hp].
    { apply elem_of_created in Hv. rewrite (Hs r Hd) in Hv. discriminate Hv. }
    revert Hv. eapply gated_not_created; [|exact Hun].
    destruct (shared_declarations_cases project E cfg backend dkimTokens azNames)
      as [H|[[region H]|(region & cfZoneId & H)]]; fold shared in H.
    + rewrite H in Hd. destruct v; vm_compute in Hd; simplify_eq.
    + rewrite H in Hd. destruct v; vm_compute in Hd; simplify_eq.
    + rewrite H in Hd |- *. by eapply shared_gated_on_provider.
  - intros v Hv. destruct (decide (v = Api.AppDomainRecord)); [done|].
    exfalso.
    assert (Hun : available (run api) Api.Provider = false).
    { unfold available. by rewrite Ha. }
    destruct (created_inv _ _ Hv) as (r & Hd & Hm & _).
    destruct (decide (v = Api.Provider)) as [->|Hp].
    { apply elem_of_created in Hv. rewrite Ha in Hv. discriminate Hv. }
    revert Hv. eapply gated_not_created; [|exact Hun].
    destruct (api_declarations_cases project E cfg backend)
      as [H|(domain & exampleSecret & H)]; fold api in H.
    + rewrite H in Hd. destruct v as [| | |[|index]| | | | | | | | | |];
        vm_compute in Hd; simplify_eq.
    + rewrite H in Hd |- *. by eapply api_gated_on_provider.
Qed.

(** The random master password is declared without the provider and reads
    nothing: it is gated on no other declaration. *)
Lemma password_gated_on_nothing project stack backend dkimTokens azNames
    region cfZoneId u :
  ~ gated_on (Shared.declared project stack backend dkimTokens azNames region cfZoneId)
      Shared.RdsInstanceMasterPassword u.
Proof.
  intros H. apply (closed_from_sound _ _ []) in H.
  - by apply elem_of_nil in H.
  - apply shared_closed_from. reflexivity.
Qed.

(** The claim of C2 as stated: for every environment name absent from the
    accounts mapping account resolution fails, and it fails before any
    resource of the project is created.  In a run of the shared project for
    the absent environment [staging] the resolution fails, but the random
    master password does not wait for it; and for the absent name
    [constructor], which every object inherits, the resolution does not
    fail. *)
Lemma C2_counterexample :
  (Aws.accounts "111" !! "staging" = None
   /\ ~ fails_before_any_creation Shared.Provider
          (Shared.declarations "shared" "staging" Scenario.cfg Scenario.backend
             ["t1"; "t2"; "t3"] ["eu-west-2a"]))
  /\ (Aws.accounts "111" !! "constructor" = None
      /\ rejection (Obj (args (Shared.provider "constructor" Scenario.backend "eu-west-2")))
          = None
      /\ rejection (Obj (args (Api.provider "constructor" Scenario.backend))) = None).
Proof.
  split; [split; [reflexivity|]|by vm_compute]. intros [_ H].
  specialize (H Shared.RdsInstanceMasterPassword
                (Shared.rdsInstanceMasterPassword "shared" "staging")
                eq_refl eq_refl ltac:(discriminate)).
  unfold Shared.declarations in H.
  rewrite (shared_program_declares "shared" "staging" Scenario.cfg Scenario.backend
             ["t1"; "t2"; "t3"] ["eu-west-2a"] "eu-west-2" "zone-1" eq_refl eq_refl) in H.
  by apply password_gated_on_nothing in H.
Qed.

(** C2 (amended): for every environment name E absent from the accounts
    mapping that is not the name of a member inherited from
    Object.prototype, the resolution of the account fails with a TypeError
    in the arguments of the scoped provider, in both projects; for an
    absent E that names such a member (constructor, toString, ...) the
    lookup finds the member, the identifier and the role resolve to
    undefined and the resolution does not fail; and the creation of every
    resource gated on the provider waits for the provider: in the shared project every created resource but the random
    master password, in the service project every created resource but its
    DNS record. *)
Theorem C2_absent_environment_fails
    (project E : string) (cfg : Config) (backend : Backend)
    (os accounts : gmap string Value) (dkimTokens azNames : list string) :
  backend !! Aws.stackName = Some os ->
  os !! "accounts" = Some (VObj accounts) ->
  accounts !! E = None ->
  let shared := Shared.declarations project E cfg backend dkimTokens azNames in
  let api := Api.declarations project E cfg backend in
  (E ∉ objectPrototype ->
     (forall region,
        field "allowedAccountIds" (args (Shared.provider E backend region))
          = Some (Arr [Out Shared.AwsMainStack (Rejected (TypeError "id"))])
        /\ rejection (Obj (args (Shared.provider E backend region)))
          = Some (TypeError "id"))
     /\ (field "allowedAccountIds" (args (Api.provider E backend))
          = Some (Arr [Out Api.AwsMainStack (Rejected (TypeError "id"))])
        /\ rejection (Obj (args (Api.provider E backend))) = Some (TypeError "id")))
  /\ (E ∈ objectPrototype ->
     (forall region,
        field "allowedAccountIds" (args (Shared.provider E backend region))
          = Some (Arr [Out Shared.AwsMainStack (Resolved VUndefined)])
        /\ field "assumeRole" (args (Shared.provider E backend region))
          = Some (Obj [("roleArn", Out Shared.AwsMainStack (Resolved VUndefined))])
        /\ rejection (Obj (args (Shared.provider E backend region))) = None)
     /\ (field "allowedAccountIds" (args (Api.provider E backend))
          = Some (Arr [Out Api.AwsMainStack (Resolved VUndefined)])
        /\ field "assumeRole" (args (Api.provider E backend))
          = Some (Obj [("roleArn", Out Api.AwsMainStack (Resolved VUndefined))])
        /\ rejection (Obj (args (Api.provider E backend))) = None))
  /\ (forall v r, decl shared v = Some r -> mode r = Create ->
        v <> Shared.Provider -> v <> Shared.RdsInstanceMasterPassword ->
        gated_on shared v Shared.Provider)
  /\ (forall v r, decl api v = Some r -> mode r = Create ->
        v <> Api.Provider -> v <> Api.AppDomainRecord ->
        gated_on api v Api.Provider).
Proof.
  intros Hb Ho HE shared api. split; [|split; [|split]].
  - intros Hn. split.
    + intros region.
      by apply (shared_provider_rejected E region backend os accounts).
    + by apply (api_provider_rejected E backend os accounts).
  - intros Hn. split.
    + intros region.
      by apply (shared_provider_inherited E region backend os accounts).
    + by apply (api_provider_inherited E backend os accounts).
  - intros v r Hd Hm Hp Hw.
    destruct (shared_declarations_cases project E cfg backend dkimTokens azNames)
      as [H|[[region H]|(region & cfZoneId & H)]]; fold shared in H.
    + rewrite H in Hd. destruct v; vm_compute in Hd; simplify_eq.
    + rewrite H in Hd. destruct v; vm_compute in Hd; simplify_eq.
    + rewrite H in Hd |- *. by eapply shared_gated_on_provider.
  - intros v r Hd Hm Hp Hw.
    destruct (api_declarations_cases project E cfg backend)
      as [H|(domain & exampleSecret & H)]; fold api in H.
    + rewrite H in Hd. destruct v as [| | |[|index]| | | | | | | | | |];
        vm_compute in Hd; simplify_eq.
    + rewrite H in Hd |- *. by eapply api_gated_on_provider.
Qed.

Lemma C2_witness :
  ("staging" ∉ objectPrototype)
  /\ rejection (Obj (args (Api.provider "staging" Scenario.backend)))
    = Some (TypeError "id")
  /\ gated_on (Shared.declarations "shared" "staging" Scenario.cfg Scenario.backend
                 ["t1"; "t2"; "t3"] ["eu-west-2a"])
       Shared.Vpc Shared.Provider.
Proof.
  assert (Hn : "staging" ∉ objectPrototype).
  { intros H. apply member_spec in H. discriminate H. }
  pose proof (C2_absent_environment_fails "shared" "staging" Scenario.cfg
    Scenario.backend (Aws.outputs "111") (Aws.account_value <$> Aws.accounts "111")
    ["t1"; "t2"; "t3"] ["eu-west-2a"] eq_refl eq_refl eq_refl) as (H1 & _ & H3 & _).
  split; [exact Hn|]. split; [exact (proj2 (proj2 (H1 Hn)))|].
  exact (H3 Shared.Vpc (Shared.vpc "shared" "staging") eq_refl eq_refl
           ltac:(discriminate) ltac:(discriminate)).
Defined.

(** ** Resources and the scoped provider *)

(** The claim of C3 as stated fails on the random master password of the
    shared project, which is created without the scoped provider. *)
Lemma C3_counterexample :
  ~ through_scoped_provider Shared.Provider
      (Shared.declarations "shared" "dev" Scenario.cfg Scenario.backend
         ["t1"; "t2"; "t3"] ["eu-west-2a"]).
Proof.
  intros H.
  specialize (H Shared.RdsInstanceMasterPassword
                (Shared.rdsInstanceMasterPassword "shared" "dev")).
  assert (Hin : (Shared.RdsInstanceMasterPassword,
                 Shared.rdsInstanceMasterPassword "shared" "dev")
                ∈ Shared.declarations "shared" "dev" Scenario.cfg Scenario.backend
                    ["t1"; "t2"; "t3"] ["eu-west-2a"]).
  { apply decl_elem_of. reflexivity. }
  specialize (H Hin eq_refl). discriminate H. discriminate.
Qed.

Lemma shared_declared_provider project stack backend dkimTokens azNames
    region cfZoneId v r :
  (v, r) ∈ Shared.declared project stack backend dkimTokens azNames region cfZoneId ->
  provider_of r = (if in_account r && bool_decide (v <> Shared.Provider)
                   then Some Shared.Provider else None).
Proof.
  unfold Shared.declared.
  rewrite !elem_of_app, !elem_of_cons, elem_of_nil, elem_of_lookup_imap.
  intros H. destruct_or!; try (simplify_eq; reflexivity); try done.
  destruct H as (i & token & Heq & _). by simplify_eq.
Qed.

Lemma api_declared_provider project stack backend domain exampleSecret v r :
  (v, r) ∈ Api.declared project stack backend domain exampleSecret ->
  provider_of r = (if in_account r && bool_decide (v <> Api.Provider)
                   then Some Api.Provider else None).
Proof.
  unfold Api.declared. rewrite !elem_of_cons, elem_of_nil.
  intros H. destruct_or!; try (simplify_eq; reflexivity); done.
Qed.

(** C3 (amended): every resource of the cloud account (the [aws] and [awsx]
    packages) declared by the shared project and by the service project,
    the provider itself apart, is created through the scoped provider; the
    other declarations (Cloudflare zone and records, the random password,
    the stack references) name no provider. *)
Theorem C3_account_resources_through_scoped_provider
    (project stack : string) (cfg : Config) (backend : Backend)
    (dkimTokens azNames : list string) :
  (forall v r,
     (v, r) ∈ Shared.declarations project stack cfg backend dkimTokens azNames ->
     (in_account r = true -> v <> Shared.Provider ->
        provider_of r = Some Shared.Provider)
     /\ (in_account r = false -> provider_of r = None))
  /\ (forall v r,
     (v, r) ∈ Api.declarations project stack cfg backend ->
     (in_account r = true -> v <> Api.Provider -> provider_of r = Some Api.Provider)
     /\ (in_account r = false -> provider_of r = None)).
Proof.
  split; intros v r Hin.
  - assert (H : provider_of r = (if in_account r && bool_decide (v <> Shared.Provider)
                                 then Some Shared.Provider else None)).
    { destruct (shared_declarations_cases project stack cfg backend dkimTokens azNames)
        as [H|[[region H]|(region & cfZoneId & H)]]; rewrite H in Hin.
      - apply list_elem_of_singleton in Hin. by simplify_eq.
      - rewrite !elem_of_cons, elem_of_nil in Hin.
        destruct_or!; by simplify_eq.
      - by eapply shared_declared_provider. }
    rewrite H. split.
    + intros -> Hp. by rewrite bool_decide_eq_true_2.
    + by intros ->.
  - assert (H : provider_of r = (if in_account r && bool_decide (v <> Api.Provider)
                                 then Some Api.Provider else None)).
    { destruct (api_declarations_cases project stack cfg backend)
        as [H|(domain & exampleSecret & H)]; rewrite H in Hin.
      - rewrite !elem_of_cons, elem_of_nil in Hin.
        destruct_or!; by simplify_eq.
      - by eapply api_declared_provider. }
    rewrite H. split.
    + intros -> Hp. by rewrite bool_decide_eq_true_2.
    + by intros ->.
Qed.

Lemma C3_witness :
  provider_of (Shared.vpc "shared" "dev") = Some Shared.Provider
  /\ provider_of (Api.appDomainRecord "api" "dev" Scenario.backend) = None.
Proof.
  destruct (C3_account_resources_through_scoped_provider "shared" "dev"
              Scenario.cfg Scenario.backend ["t1"; "t2"; "t3"] ["eu-west-2a"])
    as [Hshared _].
  destruct (C3_account_resources_through_scoped_provider "api" "dev"
              Scenario.cfg Scenario.backend [] []) as [_ Hapi].
  split.
  - refine (proj1 (Hshared Shared.Vpc (Shared.vpc "shared" "dev") _) eq_refl _).
    + apply decl_elem_of. reflexivity.
    + discriminate.
  - refine (proj2 (Hapi Api.AppDomainRecord
                     (Api.appDomainRecord "api" "dev" Scenario.backend) _) eq_refl).
    apply decl_elem_of. reflexivity.
Defined.

(** * The account project *)




(** C8: the account project declares its account exactly once, protected
    from deletion and with the close-on-deletion flag set, both explicitly
    in the declaration; the declaration is the same in every run (it reads
    no stack name and no configuration) but for the suffix of the e-mail
    address, which comes from a random identifier that has no inputs of its
    own. *)
Theorem C8_account_protected_and_closed_on_deletion :
  exec Aws.program
    = ([(Aws.DevAccountEmailId, Aws.devAccountEmailId);
        (Aws.DevAccount, Aws.devAccount)], inr tt)
  /\ (forall v r, (v, r) ∈ fst (exec Aws.program) ->
        ty r = TY aws "organizations.Account" ->
        v = Aws.DevAccount
        /\ mode r = Create
        /\ protect (opts r) = Some true
        /\ field "closeOnDeletion" (args r) = Some (Bool true))
  /\ length (List.filter (fun d => bool_decide (ty (snd d) = TY aws "organizations.Account"))
                 (fst (exec Aws.program))) = 1
  /\ deps Aws.devAccount = [Aws.DevAccountEmailId]
  /\ deps Aws.devAccountEmailId = [].
Proof.
  split_and!; try reflexivity.
  intros v r Hin. cbn in Hin. rewrite !elem_of_cons, elem_of_nil in Hin.
  destruct_or!; simplify_eq; [discriminate|done..].
Qed.

Lemma C8_witness :
  protect (opts Aws.devAccount) = Some true
  /\ field "closeOnDeletion" (args Aws.devAccount) = Some (Bool true).
Proof.
  destruct C8_account_protected_and_closed_on_deletion as (_ & H & _).
  destruct (H Aws.DevAccount Aws.devAccount
              ltac:(apply decl_elem_of; reflexivity) eq_refl) as (_ & _ & H1 & H2).
  exact (conj H1 H2).
Defined.

(** The claim of C9 as stated: for every stack name other than [dev]
    account resolution fails.  [constructor] is not a key of the mapping,
    but every object inherits a member of that name: the lookup finds it,
    its [id] and [arn] are [undefined], and the resolution does not fail. *)
Lemma C9_counterexample :
  "constructor" <> "dev"
  /\ Scenario.backend !! Aws.stackName = Some (Aws.outputs "111")
  /\ Aws.accounts "111" !! "constructor" = None
  /\ field "allowedAccountIds"
        (args (Shared.provider "constructor" Scenario.backend "eu-west-2"))
     = Some (Arr [Out Shared.AwsMainStack (Resolved VUndefined)])
  /\ rejection (Obj (args (Shared.provider "constructor" Scenario.backend "eu-west-2")))
     = None
  /\ rejection (Obj (args (Api.provider "constructor" Scenario.backend))) = None.
Proof. split; [discriminate|]. by vm_compute. Qed.

(** C9 (amended): the accounts mapping published by the account project has
    exactly the key [dev]; for every other stack name (prod and staging
    among them) that is not the name of a member inherited from
    Object.prototype, account resolution fails in the shared project and in
    the service project: the projection [accounts[stack].id] throws a
    TypeError.  For a stack named as such a member (constructor, toString,
    ...) the lookup finds the member, the identifier and the role resolve
    to undefined, and the resolution does not fail. *)
Theorem C9_only_dev_resolves (devAccountId : string) :
  dom (Aws.accounts devAccountId) = {["dev"]}
  /\ forall (stack : string) (backend : Backend) (region : string),
       stack <> "dev" ->
       backend !! Aws.stackName = Some (Aws.outputs devAccountId) ->
       (stack ∉ objectPrototype ->
          (field "allowedAccountIds" (args (Shared.provider stack backend region))
             = Some (Arr [Out Shared.AwsMainStack (Rejected (TypeError "id"))])
           /\ rejection (Obj (args (Shared.provider stack backend region)))
             = Some (TypeError "id"))
          /\ (field "allowedAccountIds" (args (Api.provider stack backend))
             = Some (Arr [Out Api.AwsMainStack (Rejected (TypeError "id"))])
           /\ rejection (Obj (args (Api.provider stack backend)))
             = Some (TypeError "id")))
       /\ (stack ∈ objectPrototype ->
          (field "allowedAccountIds" (args (Shared.provider stack backend region))
             = Some (Arr [Out Shared.AwsMainStack (Resolved VUndefined)])
           /\ field "assumeRole" (args (Shared.provider stack backend region))
             = Some (Obj [("roleArn", Out Shared.AwsMainStack (Resolved VUndefined))])
           /\ rejection (Obj (args (Shared.provider stack backend region))) = None)
          /\ (field "allowedAccountIds" (args (Api.provider stack backend))
             = Some (Arr [Out Api.AwsMainStack (Resolved VUndefined)])
           /\ field "assumeRole" (args (Api.provider stack backend))
             = Some (Obj [("roleArn", Out Api.AwsMainStack (Resolved VUndefined))])
           /\ rejection (Obj (args (Api.provider stack backend))) = None)).
Proof.
  split.
  - unfold Aws.accounts. by rewrite dom_singleton_L.
  - intros stack backend region Hne Hb.
    assert (Ho : Aws.outputs devAccountId !! "accounts"
                 = Some (VObj (Aws.account_value <$> Aws.accounts devAccountId)))
      by reflexivity.
    assert (HE : (Aws.account_value <$> Aws.accounts devAccountId) !! stack = None).
    { rewrite lookup_fmap. unfold Aws.accounts.
      by rewrite lookup_singleton_ne. }
    split; intros Hn; split.
    + exact (shared_provider_rejected stack region _ _ _ Hb Ho HE Hn).
    + exact (api_provider_rejected stack _ _ _ Hb Ho HE Hn).
    + exact (shared_provider_inherited stack region _ _ _ Hb Ho HE Hn).
    + exact (api_provider_inherited stack _ _ _ Hb Ho HE Hn).
Qed.

Lemma C9_witness :
  "prod" <> "dev"
  /\ ("prod" ∉ objectPrototype)
  /\ rejection (Obj (args (Shared.provider "prod" Scenario.backend "eu-west-2")))
     = Some (TypeError "id")
  /\ rejection (Obj (args (Api.provider "staging" Scenario.backend)))
     = Some (TypeError "id").
Proof.
  assert (Hprod : "prod" ∉ objectPrototype).
  { intros H. apply member_spec in H. discriminate H. }
  assert (Hstaging : "staging" ∉ objectPrototype).
  { intros H. apply member_spec in H. discriminate H. }
  split; [discriminate|]. split; [exact Hprod|].
  destruct (C9_only_dev_resolves "111") as [_ H].
  split.
  - exact (proj2 (proj1 (proj1 (H "prod" Scenario.backend "eu-west-2"
                                  ltac:(discriminate) eq_refl) Hprod))).
  - exact (proj2 (proj2 (proj1 (H "staging" Scenario.backend "eu-west-2"
                                  ltac:(discriminate) eq_refl) Hstaging))).
Defined.

(** * The database of the shared project *)

(** C10: for every environment, the database cluster instance is declared
    publicly accessible, in the subnet group built from the public subnets
    of the VPC, and the security group of its cluster admits TCP on port
    5432 from 0.0.0.0/0. *)
Theorem C10_database_publicly_reachable
    (project stack : string) (cfg : Config) (backend : Backend)
    (dkimTokens azNames : list string) (region cfZoneId : string) :
  cfg !! "aws:region" = Some region ->
  cfg !! "shared:cfZoneId" = Some cfZoneId ->
  let ds := Shared.declarations project stack cfg backend dkimTokens azNames in
  decl ds Shared.RdsInstance = Some (Shared.rdsInstance project stack)
  /\ decl ds Shared.RdsCluster = Some (Shared.rdsCluster project stack azNames)
  /\ decl ds Shared.RdsSubnetGroup = Some (Shared.rdsSubnetGroup project stack)
  /\ decl ds Shared.RdsSecurityGroup = Some (Shared.rdsSecurityGroup project stack)
  /\ field "publiclyAccessible" (args (Shared.rdsInstance project stack))
     = Some (Bool true)
  /\ field "dbSubnetGroupName" (args (Shared.rdsInstance project stack))
     = Some (Ref Shared.RdsSubnetGroup ["name"])
  /\ field "subnetIds" (args (Shared.rdsSubnetGroup project stack))
     = Some (Ref Shared.Vpc ["publicSubnetIds"])
  /\ field "clusterIdentifier" (args (Shared.rdsInstance project stack))
     = Some (Ref Shared.RdsCluster ["id"])
  /\ field "vpcSecurityGroupIds" (args (Shared.rdsCluster project stack azNames))
     = Some (Arr [Ref Shared.RdsSecurityGroup ["id"]])
  /\ field "ingress" (args (Shared.rdsSecurityGroup project stack))
     = Some (Arr [Obj [("protocol", Str "tcp"); ("fromPort", Num 5432);
                       ("toPort", Num 5432);
                       ("cidrBlocks", Arr [Str "0.0.0.0/0"])]]).
Proof.
  intros Hr Hz ds. unfold ds, Shared.declarations.
  rewrite (shared_program_declares _ _ _ _ _ _ _ _ Hr Hz). cbn [fst].
  rewrite !shared_decl. split_and!; reflexivity.
Qed.

Lemma C10_witness :
  decl (Shared.declarations "shared" "prod" Scenario.cfg Scenario.backend [] [])
    Shared.RdsInstance = Some (Shared.rdsInstance "shared" "prod")
  /\ field "publiclyAccessible" (args (Shared.rdsInstance "shared" "prod"))
     = Some (Bool true).
Proof.
  destruct (C10_database_publicly_reachable "shared" "prod" Scenario.cfg
              Scenario.backend [] [] "eu-west-2" "zone-1" eq_refl eq_refl)
    as (H1 & _ & _ & _ & H2 & _).
  exact (conj H1 H2).
Defined.

(** * The DNS and certificate validation chain *)

(** The certificate is requested without waiting for the mail domain to be
    verified. *)
Lemma certificate_not_gated_on_verification project stack backend dkimTokens azNames
    region cfZoneId :
  ~ gated_on (Shared.declared project stack backend dkimTokens azNames region cfZoneId)
      Shared.Certificate Shared.SesDomainVerification.
Proof.
  intros H.
  apply (closed_from_sound _ _
           [Shared.CloudflareZone; Shared.Provider; Shared.AwsMainStack]) in H.
  - rewrite !elem_of_cons, elem_of_nil in H. by destruct_or!.
  - apply shared_closed_from. reflexivity.
Qed.

(** The certificate validation names the certificate and the provider only:
    nothing makes it wait for the validation record, which is declared after
    it. *)
Lemma certificateValidation_not_gated_on_record project stack backend dkimTokens
    azNames region cfZoneId :
  ~ gated_on (Shared.declared project stack backend dkimTokens azNames region cfZoneId)
      Shared.CertificateValidation Shared.CertificateValidationRecord.
Proof.
  intros H.
  apply (closed_from_sound _ _
           [Shared.Certificate; Shared.CloudflareZone; Shared.Provider;
            Shared.AwsMainStack]) in H.
  - rewrite !elem_of_cons, elem_of_nil in H. by destruct_or!.
  - apply shared_closed_from. reflexivity.
Qed.

(** The claim of C5 as stated fails: in the chain of the specification the
    certificate follows the verification completion, on which it does not
    depend. *)
Lemma C5_counterexample :
  ~ each_stage_gated
      (Shared.declarations "shared" "dev" Scenario.cfg Scenario.backend
         ["t1"; "t2"; "t3"] ["eu-west-2a"])
      Shared.chain.
Proof.
  intros H.
  specialize (H 2 Shared.SesDomainVerification Shared.Certificate eq_refl eq_refl).
  unfold Shared.declarations in H.
  rewrite (shared_program_declares "shared" "dev" Scenario.cfg Scenario.backend
             ["t1"; "t2"; "t3"] ["eu-west-2a"] "eu-west-2" "zone-1" eq_refl eq_refl) in H.
  by apply certificate_not_gated_on_verification in H.
Qed.

(** C5 (amended): the chain is made of two independent parts.  In the mail
    part the DNS record proving control is gated on the domain identity,
    whose verification token it carries, and the verification completion is
    gated on that record through [dependsOn].  In the certificate part the
    domain-validation DNS record and the certificate validation are each
    gated on the certificate.  The certificate is not gated on the
    verification completion. *)
Theorem C5_validation_chain_gates
    (project stack : string) (cfg : Config) (backend : Backend)
    (dkimTokens azNames : list string) (region cfZoneId : string) :
  cfg !! "aws:region" = Some region ->
  cfg !! "shared:cfZoneId" = Some cfZoneId ->
  let ds := Shared.declarations project stack cfg backend dkimTokens azNames in
  field "value" (args (Shared.sesRecordVerificationRecord project stack))
    = Some (Ref Shared.SesDomainIdentity ["verificationToken"])
  /\ dependsOn (opts (Shared.sesDomainVerification project stack))
    = [Shared.SesRecordVerificationRecord]
  /\ gated_on ds Shared.SesRecordVerificationRecord Shared.SesDomainIdentity
  /\ gated_on ds Shared.SesDomainVerification Shared.SesRecordVerificationRecord
  /\ gated_on ds Shared.CertificateValidationRecord Shared.Certificate
  /\ gated_on ds Shared.CertificateValidation Shared.Certificate
  /\ ~ gated_on ds Shared.Certificate Shared.SesDomainVerification.
Proof.
  intros Hr Hz ds. unfold ds, Shared.declarations.
  rewrite (shared_program_declares _ _ _ _ _ _ _ _ Hr Hz). cbn [fst].
  split_and!; try reflexivity; try (apply tc_once; shared_names).
  apply certificate_not_gated_on_verification.
Qed.

Lemma C5_witness :
  gated_on (Shared.declarations "shared" "dev" Scenario.cfg Scenario.backend
              ["t1"; "t2"; "t3"] ["eu-west-2a"])
    Shared.SesDomainVerification Shared.SesRecordVerificationRecord.
Proof.
  exact (proj1 (proj2 (proj2 (proj2
    (C5_validation_chain_gates "shared" "dev" Scenario.cfg Scenario.backend
       ["t1"; "t2"; "t3"] ["eu-west-2a"] "eu-west-2" "zone-1" eq_refl eq_refl))))).
Defined.

(** * Cross-project output references *)

Lemma reads_of_same_outputs (backend backend' : Backend) n k :
  backend !! n = backend' !! n ->
  getOutput (newStackReference backend n) k
    = getOutput (newStackReference backend' n) k
  /\ requireOutput (newStackReference backend n) k
    = requireOutput (newStackReference backend' n) k.
Proof.
  intros H. unfold getOutput, requireOutput, newStackReference. cbn [sr_outputs].
  by rewrite H.
Qed.

(** The two arguments of the scoped provider of the service project read
    the [accounts] output of one reference: when both resolve, they are the
    two fields of one record of one value of that output. *)
Lemma provider_arguments_of_one_record (stack : string) (backend : Backend) i a :
  field "allowedAccountIds" (args (Api.provider stack backend))
    = Some (Arr [Out Api.AwsMainStack (Resolved i)]) ->
  field "assumeRole" (args (Api.provider stack backend))
    = Some (Obj [("roleArn", Out Api.AwsMainStack (Resolved a))]) ->
  exists os accounts record,
    backend !! Aws.stackName = Some os
    /\ os !! "accounts" = Some accounts
    /\ prop accounts stack = Resolved record
    /\ prop record "id" = Resolved i
    /\ prop record "arn" = Resolved a.
Proof.
  unfold Api.provider, Api.awsMainStack, requireOutput, newStackReference.
  cbn [args field String.eqb Ascii.eqb Bool.eqb sr_outputs].
  unfold Aws.stackName.
  destruct (backend !! "example/aws/prod") as [os|] eqn:Hb; cbn [apply];
    [|intros H; discriminate H].
  destruct (os !! "accounts") as [accounts|] eqn:Ho; cbn [apply];
    [|intros H; discriminate H].
  unfold props. cbn [apply].
  destruct (prop accounts stack) as [record|] eqn:Hrec; cbn [apply];
    [|intros H; discriminate H].
  destruct (prop record "id") as [i'|] eqn:Hi; cbn [apply];
    [|intros H; discriminate H].
  destruct (prop record "arn") as [a'|] eqn:Ha; cbn [apply];
    [|intros _ H; discriminate H].
  intros [= <-] [= <-]. by exists os, accounts, record.
Qed.

(** * The service project and the shared resources *)



(** * The scenarios of the specification, run *)

(** Scenario 1: with [{dev: {id: "111", arn: "role-dev"}}] the shared
    project for stack [dev] constructs the provider restricted to account
    111 and creates all its resources. *)
Example scenario1_shared_dev :
  field "allowedAccountIds" (args (Shared.provider "dev" Scenario.backend1 "eu-west-2"))
    = Some (Arr [Out Shared.AwsMainStack (Resolved (VStr "111"))])
  /\ created (Shared.declarations "shared" "dev" Scenario.cfg Scenario.backend1
                ["t1"; "t2"] ["eu-west-2b"; "eu-west-2a"])
     = [Shared.Provider; Shared.SesDomainIdentity; Shared.SesDomainDkim;
        Shared.SesDomainDkimRecords 0; Shared.SesDomainDkimRecords 1;
        Shared.SesRecordVerificationRecord; Shared.SesDomainVerification;
        Shared.Certificate; Shared.CertificateValidation;
        Shared.CertificateValidationRecord; Shared.Vpc;
        Shared.LoadBalancerSecurityGroup; Shared.LoadBalancer; Shared.Listener;
        Shared.EcsCluster; Shared.RdsSecurityGroup; Shared.RdsSubnetGroup;
        Shared.RdsInstanceMasterPassword; Shared.RdsCluster; Shared.RdsInstance].
Proof. split; vm_compute; reflexivity. Qed.

(** Scenario 2: the mapping lacks [staging]; the provider fails and no
    network resource is created. *)
Example scenario2_shared_staging :
  let log := run (Shared.declarations "shared" "staging" Scenario.cfg Scenario.backend1
                    ["t1"; "t2"] ["eu-west-2a"]) in
  outcome log Shared.Provider = Some (Failed (TypeError "id"))
  /\ outcome log Shared.Vpc = Some Blocked
  /\ outcome log Shared.LoadBalancer = Some Blocked
  /\ outcome log Shared.RdsInstanceMasterPassword = Some Created.
Proof. vm_compute. done. Qed.

(** Scenario 3: the shared project was never deployed for [dev]; the
    reference of the service project fails and what reads it is blocked. *)
Example scenario3_api_without_shared :
  let log := run (Api.declarations "api" "dev" Scenario.cfg Scenario.backend) in
  outcome log Api.Shared = Some (Failed (StackNotFound "example/shared/dev"))
  /\ outcome log Api.TargetGroup = Some Blocked
  /\ outcome log Api.ListenerRule = Some Blocked
  /\ outcome log Api.AppService = Some Blocked
  /\ outcome log Api.AppDomainRecord = Some Blocked.
Proof. vm_compute. done. Qed.

(** The names of the declarations follow the project and the stack. *)
Example names_of_declarations :
  name (Api.createSecret "api" "dev" 0 ("EXAMPLE_SECRET", Secret "s"))
    = "api-example_secret-dev"
  /\ name (Shared.sesDomainDkimRecord "shared" "dev" 2 "token") = "shared-ses-dkim-dev-2"
  /\ field "availabilityZones"
       (args (Shared.rdsCluster "shared" "dev" ["eu-west-2b"; "eu-west-2a"]))
     = Some (Arr [Promise (Resolved (VStr "eu-west-2a"))])
  /\ field "deletionProtection" (args (Shared.rdsCluster "shared" "prod" []))
     = Some (Bool true).
Proof. vm_compute. done. Qed.

(** * Further properties of the programs *)

Set Warnings "-clear-no-such-hyp".

(** ** Configuration errors *)

Lemma shared_exec_without_region project stack cfg backend dkimTokens azNames :
  cfg !! "aws:region" = None ->
  exec (Shared.program project stack cfg backend dkimTokens azNames)
  = ([(Shared.AwsMainStack, reference (Shared.awsMainStack backend))],
     inl (MissingRequiredConfig "aws:region")).
Proof.
  intros Hr. unfold exec, Shared.program, bind, new, attempt.
  by rewrite (require_None cfg "aws" "region" Hr).
Qed.

Lemma shared_exec_without_zone project stack cfg backend dkimTokens azNames region :
  cfg !! "aws:region" = Some region ->
  cfg !! "shared:cfZoneId" = None ->
  exec (Shared.program project stack cfg backend dkimTokens azNames)
  = ([(Shared.AwsMainStack, reference (Shared.awsMainStack backend));
      (Shared.Provider, Shared.provider stack backend region)],
     inl (MissingRequiredConfig "shared:cfZoneId")).
Proof.
  intros Hr Hz. unfold exec, Shared.program, bind, new, attempt.
  rewrite (require_Some cfg "aws" "region" region Hr).
  by rewrite (require_None cfg "shared" "cfZoneId" Hz).
Qed.

(** The shared program reads [aws:region] while it builds the arguments of
    the provider and [shared:cfZoneId] while it looks the zone up: without
    the first it throws when only the stack reference is declared, without
    the second when only the reference and the provider are. *)
Theorem shared_missing_configuration
    (project stack : string) (cfg : Config) (backend : Backend)
    (dkimTokens azNames : list string) :
  (cfg !! "aws:region" = None ->
     exec (Shared.program project stack cfg backend dkimTokens azNames)
     = ([(Shared.AwsMainStack, reference (Shared.awsMainStack backend))],
        inl (MissingRequiredConfig "aws:region")))
  /\ (forall region, cfg !! "aws:region" = Some region ->
        cfg !! "shared:cfZoneId" = None ->
        exec (Shared.program project stack cfg backend dkimTokens azNames)
        = ([(Shared.AwsMainStack, reference (Shared.awsMainStack backend));
            (Shared.Provider, Shared.provider stack backend region)],
           inl (MissingRequiredConfig "shared:cfZoneId"))).
Proof.
  split.
  - apply shared_exec_without_region.
  - intros region. apply shared_exec_without_zone.
Qed.

Lemma shared_missing_configuration_witness :
  snd (exec (Shared.program "shared" "dev" ∅ Scenario.backend [] []))
    = inl (MissingRequiredConfig "aws:region")
  /\ snd (exec (Shared.program "shared" "dev" {[ "aws:region" := "eu-west-2" ]}
                 Scenario.backend [] []))
    = inl (MissingRequiredConfig "shared:cfZoneId").
Proof.
  destruct (shared_missing_configuration "shared" "dev" ∅ Scenario.backend [] [])
    as [H1 _].
  destruct (shared_missing_configuration "shared" "dev"
              {[ "aws:region" := "eu-west-2" ]} Scenario.backend [] []) as [_ H2].
  split.
  - exact (f_equal snd (H1 eq_refl)).
  - exact (f_equal snd (H2 "eu-west-2" eq_refl eq_refl)).
Defined.

(** The service program reads [api:domain] and then the secret
    [api:EXAMPLE_SECRET], both after it has declared its two stack
    references and its provider: without either key it throws with these
    three declarations made and no other. *)
Theorem api_missing_configuration
    (project stack : string) (cfg : Config) (backend : Backend) :
  let declared_so_far :=
    [(Api.AwsMainStack, reference (Api.awsMainStack backend));
     (Api.Shared, reference (Api.shared stack backend));
     (Api.Provider, Api.provider stack backend)] in
  (cfg !! "api:domain" = None ->
     exec (Api.program project stack cfg backend)
     = (declared_so_far, inl (MissingRequiredConfig "api:domain")))
  /\ (forall domain, cfg !! "api:domain" = Some domain ->
        cfg !! "api:EXAMPLE_SECRET" = None ->
        exec (Api.program project stack cfg backend)
        = (declared_so_far, inl (MissingRequiredConfig "api:EXAMPLE_SECRET"))).
Proof.
  split.
  - intros Hd. unfold exec, Api.program, bind, new, attempt.
    by rewrite (require_None cfg "api" "domain" Hd).
  - intros domain Hd Hs. unfold exec, Api.program, bind, new, attempt.
    rewrite (require_Some cfg "api" "domain" domain Hd).
    by rewrite (require_None cfg "api" "EXAMPLE_SECRET" Hs).
Qed.

Lemma api_missing_configuration_witness :
  snd (exec (Api.program "api" "dev" {[ "api:domain" := "api.example.com" ]}
               Scenario.backend))
  = inl (MissingRequiredConfig "api:EXAMPLE_SECRET").
Proof.
  destruct (api_missing_configuration "api" "dev"
              {[ "api:domain" := "api.example.com" ]} Scenario.backend) as [_ H].
  exact (f_equal snd (H "api.example.com" eq_refl eq_refl)).
Defined.

(** ** How account resolution fails *)

(** The shared project reads the mapping with [getOutput], the service
    project with [requireOutput].  When the account stack publishes no
    [accounts] output the first fails on [undefined[stack]], with a
    TypeError that names the stack, and the second with the error of the
    missing output; when the account stack does not exist both fail on the
    reference. *)
Theorem resolution_failure_modes (stack region : string) (backend : Backend) :
  (backend !! Aws.stackName = None ->
     rejection (Obj (args (Shared.provider stack backend region)))
       = Some (StackNotFound Aws.stackName)
     /\ rejection (Obj (args (Api.provider stack backend)))
       = Some (StackNotFound Aws.stackName))
  /\ (forall os, backend !! Aws.stackName = Some os -> os !! "accounts" = None ->
        rejection (Obj (args (Shared.provider stack backend region)))
          = Some (TypeError stack)
        /\ rejection (Obj (args (Api.provider stack backend)))
          = Some (MissingRequiredOutput "accounts")).
Proof.
  unfold Aws.stackName, Shared.provider, Api.provider, Shared.accounts,
    Shared.awsMainStack, Api.awsMainStack, getOutput, requireOutput,
    newStackReference.
  cbn [args sr_outputs]. split.
  - intros ->. done.
  - intros os Hb Ho. rewrite Hb. cbn [apply prop]. rewrite Ho.
    change (inherited [] "accounts") with VUndefined. done.
Qed.

Lemma resolution_failure_modes_witness :
  rejection (Obj (args (Shared.provider "dev" ∅ "eu-west-2")))
    = Some (StackNotFound "example/aws/prod")
  /\ rejection (Obj (args (Shared.provider "dev" {[ Aws.stackName := ∅ ]} "eu-west-2")))
    = Some (TypeError "dev")
  /\ rejection (Obj (args (Api.provider "dev" {[ Aws.stackName := ∅ ]})))
    = Some (MissingRequiredOutput "accounts").
Proof.
  destruct (resolution_failure_modes "dev" "eu-west-2" ∅) as [H1 _].
  destruct (resolution_failure_modes "dev" "eu-west-2" {[ Aws.stackName := ∅ ]})
    as [_ H2].
  split; [exact (proj1 (H1 eq_refl))|].
  exact (H2 ∅ eq_refl eq_refl).
Defined.

(** Resolution checks that the mapping has an entry for the stack and
    nothing else: a record without [id] or [arn] resolves to [undefined]
    there, and the provider is declared with that value and no error. *)
Theorem resolution_does_not_validate_record
    (stack region : string) (backend : Backend)
    (os accounts record : gmap string Value) :
  backend !! Aws.stackName = Some os ->
  os !! "accounts" = Some (VObj accounts) ->
  accounts !! stack = Some (VObj record) ->
  field "allowedAccountIds" (args (Shared.provider stack backend region))
    = Some (Arr [Out Shared.AwsMainStack
                   (Resolved (default VUndefined (record !! "id")))])
  /\ field "assumeRole" (args (Api.provider stack backend))
    = Some (Obj [("roleArn",
                   Out Api.AwsMainStack
                     (Resolved (default VUndefined (record !! "arn"))))])
  /\ rejection (Obj (args (Shared.provider stack backend region))) = None
  /\ rejection (Obj (args (Api.provider stack backend))) = None.
Proof.
  intros Hb Ho Hs. unfold Aws.stackName in Hb.
  unfold Shared.provider, Api.provider, Shared.accounts,
    Shared.awsMainStack, Api.awsMainStack.
  rewrite (getOutput_found _ _ _ _ _ Hb Ho), (requireOutput_found _ _ _ _ _ Hb Ho).
  cbn [args field String.eqb Ascii.eqb Bool.eqb apply].
  unfold props, prop. cbn [apply]. rewrite Hs. cbn [apply default]. done.
Qed.

Lemma resolution_does_not_validate_record_witness :
  field "allowedAccountIds"
    (args (Shared.provider "dev"
             {[ Aws.stackName := {[ "accounts" := VObj {[ "dev" := VObj ∅ ]} ]} ]}
             "eu-west-2"))
  = Some (Arr [Out Shared.AwsMainStack (Resolved VUndefined)]).
Proof.
  exact (proj1 (resolution_does_not_validate_record "dev" "eu-west-2"
    {[ Aws.stackName := {[ "accounts" := VObj {[ "dev" := VObj ∅ ]} ]} ]}
    {[ "accounts" := VObj {[ "dev" := VObj ∅ ]} ]} {[ "dev" := VObj ∅ ]} ∅
    eq_refl eq_refl eq_refl)).
Defined.

(** ** The regions of the two providers *)

(** The provider of the shared project works in the configured region, the
    provider of the service project in [eu-west-2] whatever is configured:
    under any other configured region the two projects of one environment
    provision in different regions. *)
Theorem provider_regions
    (project stack : string) (cfg : Config) (backend : Backend)
    (dkimTokens azNames : list string) (region : string) :
  cfg !! "aws:region" = Some region ->
  (exists r, decl (Shared.declarations project stack cfg backend dkimTokens azNames)
               Shared.Provider = Some r
             /\ field "region" (args r) = Some (Str region))
  /\ (exists r, decl (Api.declarations project stack cfg backend) Api.Provider = Some r
             /\ field "region" (args r) = Some (Str "eu-west-2"))
  /\ (region <> "eu-west-2" ->
        forall s a,
          field "region" (args (Shared.provider stack backend region)) = Some (Str s) ->
          field "region" (args (Api.provider stack backend)) = Some (Str a) ->
          s <> a).
Proof.
  intros Hr. split_and!.
  - exists (Shared.provider stack backend region). split; [|done].
    unfold Shared.declarations.
    destruct (cfg !! "shared:cfZoneId") as [z|] eqn:Hz.
    + rewrite (shared_program_declares _ _ _ _ _ _ _ _ Hr Hz). cbn [fst].
      by rewrite shared_decl.
    + by rewrite (shared_exec_without_zone project stack cfg backend
                    dkimTokens azNames region Hr Hz).
  - exists (Api.provider stack backend). split; [|done].
    destruct (api_declarations_cases project stack cfg backend)
      as [H|(domain & exampleSecret & H)]; rewrite H; reflexivity.
  - intros Hne s a. cbn. intros [= <-] [= <-]. done.
Qed.

Lemma provider_regions_witness :
  exists r,
    decl (Shared.declarations "shared" "dev" {[ "aws:region" := "us-east-1" ]}
            Scenario.backend [] []) Shared.Provider = Some r
    /\ field "region" (args r) = Some (Str "us-east-1").
Proof.
  exact (proj1 (provider_regions "shared" "dev"
           {[ "aws:region" := "us-east-1" ]} Scenario.backend [] [] "us-east-1"
           eq_refl)).
Defined.

(** ** The DKIM records *)

Lemma dkim_variables_from project stack tokens (k : nat) :
  (imap (fun i token =>
           (Shared.SesDomainDkimRecords (k + i),
            Shared.sesDomainDkimRecord project stack (k + i) token)) tokens).*1
  = Shared.SesDomainDkimRecords <$> seq k (length tokens).
Proof.
  revert k. induction tokens as [|token tokens IH]; intros k; [done|].
  cbn [imap fmap list_fmap length seq fst]. rewrite Nat.add_0_r. f_equal.
  rewrite <- IH. f_equal. apply imap_ext. intros i x _. simpl.
  by rewrite Nat.add_succ_r.
Qed.

Lemma shared_variables project stack backend dkimTokens azNames region cfZoneId :
  (Shared.declared project stack backend dkimTokens azNames region cfZoneId).*1
  = [Shared.AwsMainStack; Shared.Provider; Shared.CloudflareZone;
     Shared.SesDomainIdentity; Shared.SesDomainDkim]
    ++ (Shared.SesDomainDkimRecords <$> seq 0 (length dkimTokens))
    ++ [Shared.SesRecordVerificationRecord; Shared.SesDomainVerification;
        Shared.Certificate; Shared.CertificateValidation;
        Shared.CertificateValidationRecord; Shared.Vpc;
        Shared.LoadBalancerSecurityGroup; Shared.LoadBalancer; Shared.Listener;
        Shared.EcsCluster; Shared.RdsSecurityGroup; Shared.RdsSubnetGroup;
        Shared.RdsInstanceMasterPassword; Shared.RdsCluster; Shared.RdsInstance].
Proof.
  unfold Shared.declared. rewrite !fmap_app.
  by rewrite <- (dkim_variables_from project stack dkimTokens 0).
Qed.

(** With its configuration set the shared program runs to its end; it
    declares twenty resources and one DNS record for each DKIM token, each
    under a variable of its own.  The record of the token at [index] is a
    CNAME from [<token>._domainkey] to [<token>.dkim.amazonses.com] named
    after the index; there is none when the domain has no token. *)
Theorem dkim_record_for_each_token
    (project stack : string) (cfg : Config) (backend : Backend)
    (dkimTokens azNames : list string) (region cfZoneId : string) :
  cfg !! "aws:region" = Some region ->
  cfg !! "shared:cfZoneId" = Some cfZoneId ->
  let ds := Shared.declarations project stack cfg backend dkimTokens azNames in
  snd (exec (Shared.program project stack cfg backend dkimTokens azNames)) = inr tt
  /\ length ds = 20 + length dkimTokens
  /\ NoDup ds.*1
  /\ (forall index,
        decl ds (Shared.SesDomainDkimRecords index) = None
        <-> length dkimTokens <= index)
  /\ (forall index token, dkimTokens !! index = Some token ->
        exists r,
          decl ds (Shared.SesDomainDkimRecords index) = Some r
          /\ ty r = TY cf "Record"
          /\ name r = project +:+ "-ses-dkim-" +:+ stack +:+ "-" +:+ pretty index
          /\ field "type" (args r) = Some (Str "CNAME")
          /\ field "name" (args r) = Some (Interp [Str token; Str "._domainkey"])
          /\ field "value" (args r)
             = Some (Interp [Str token; Str ".dkim.amazonses.com"])
          /\ field "zoneId" (args r) = Some (Ref Shared.CloudflareZone ["id"])).
Proof.
  intros Hr Hz ds. unfold ds, Shared.declarations.
  rewrite (shared_program_declares _ _ _ _ _ _ _ _ Hr Hz). cbn [fst snd].
  split_and!.
  - done.
  - unfold Shared.declared. rewrite !length_app, length_imap. simpl. lia.
  - rewrite shared_variables.
    apply NoDup_app. split_and!.
    + by repeat (constructor; [set_solver|]); constructor.
    + intros x Hx Hin. apply elem_of_app in Hin as [Hin|Hin].
      * apply list_elem_of_fmap in Hin as (i & -> & _). set_solver.
      * set_solver.
    + apply NoDup_app. split_and!.
      * apply NoDup_fmap_2; [by intros ?? [=]|apply NoDup_seq].
      * intros x Hx Hin. apply list_elem_of_fmap in Hx as (i & -> & _). set_solver.
      * by repeat (constructor; [set_solver|]); constructor.
  - intros index. rewrite shared_decl. cbn.
    rewrite fmap_None. apply lookup_ge_None.
  - intros index token Htok. eexists. rewrite shared_decl. cbn. rewrite Htok.
    split_and!; reflexivity.
Qed.

Lemma dkim_record_for_each_token_witness :
  length (Shared.declarations "shared" "dev" Scenario.cfg Scenario.backend
            ["t1"; "t2"; "t3"] ["eu-west-2a"]) = 23
  /\ decl (Shared.declarations "shared" "dev" Scenario.cfg Scenario.backend
             [] ["eu-west-2a"]) (Shared.SesDomainDkimRecords 0) = None.
Proof.
  destruct (dkim_record_for_each_token "shared" "dev" Scenario.cfg Scenario.backend
              ["t1"; "t2"; "t3"] ["eu-west-2a"] "eu-west-2" "zone-1" eq_refl eq_refl)
    as (_ & H1 & _).
  destruct (dkim_record_for_each_token "shared" "dev" Scenario.cfg Scenario.backend
              [] ["eu-west-2a"] "eu-west-2" "zone-1" eq_refl eq_refl)
    as (_ & _ & _ & H2 & _).
  split; [exact H1|]. apply H2. apply Nat.le_0_l.
Defined.

(** ** The shape of the reference graph *)

Lemma ranked_gated {V : Type} `{!EqDecision V} (rank : V -> nat)
    (ds : list (V * Resource V)) :
  (forall v u, direct ds v u -> rank u < rank v) ->
  forall v u, gated_on ds v u -> rank u < rank v.
Proof.
  intros Hstep v u H. induction H as [v u H|v w u H Hwu IH].
  - by apply Hstep.
  - pose proof (Hstep _ _ H). lia.
Qed.

Lemma shared_direct_inv project stack backend dkimTokens azNames region cfZoneId v u :
  direct (Shared.declared project stack backend dkimTokens azNames region cfZoneId) v u ->
  exists r,
    Shared.resource project stack backend dkimTokens azNames region cfZoneId v = Some r
    /\ u ∈ deps r.
Proof. intros (r & Hd & Hin). rewrite shared_decl in Hd. eauto. Qed.

Ltac shared_resource_cases H v :=
  destruct v; cbn in H;
  try match type of H with
      | _ <$> ?o = Some _ => destruct o; cbn in H
      end;
  simplify_eq.

(** A declaration of the shared program names only resources that the
    program declares, and no resource is gated on itself: the reference
    graph has no dangling reference and no cycle, whatever the
    configuration and the DKIM tokens. *)
Theorem shared_reference_graph_well_founded
    (project stack : string) (cfg : Config) (backend : Backend)
    (dkimTokens azNames : list string) :
  let ds := Shared.declarations project stack cfg backend dkimTokens azNames in
  (forall v u, direct ds v u -> is_Some (decl ds u))
  /\ (forall v, ~ gated_on ds v v).
Proof.
  intros ds.
  pose (rank := fun v : Shared.Var =>
    match v with
    | Shared.AwsMainStack => 0 | Shared.Provider => 1 | Shared.CloudflareZone => 2
    | Shared.SesDomainIdentity => 3 | Shared.SesDomainDkim => 4
    | Shared.SesDomainDkimRecords _ => 5 | Shared.SesRecordVerificationRecord => 6
    | Shared.SesDomainVerification => 7 | Shared.Certificate => 8
    | Shared.CertificateValidation => 9 | Shared.CertificateValidationRecord => 10
    | Shared.Vpc => 11 | Shared.LoadBalancerSecurityGroup => 12
    | Shared.LoadBalancer => 13 | Shared.Listener => 14 | Shared.EcsCluster => 15
    | Shared.RdsSecurityGroup => 16 | Shared.RdsSubnetGroup => 17
    | Shared.RdsInstanceMasterPassword => 18 | Shared.RdsCluster => 19
    | Shared.RdsInstance => 20
    end).
  assert (Hstep : forall v u, direct ds v u -> is_Some (decl ds u) /\ rank u < rank v).
  { intros v u Hd.
    destruct (shared_declarations_cases project stack cfg backend dkimTokens azNames)
      as [H|[[region H]|(region & cfZoneId & H)]]; fold ds in H; rewrite H in Hd |- *.
    - destruct Hd as (r & Hd & Hin). destruct v; vm_compute in Hd; simplify_eq.
      vm_compute in Hin. by apply elem_of_nil in Hin.
    - destruct Hd as (r & Hd & Hin).
      destruct v; vm_compute in Hd; simplify_eq;
        apply list_elem_of_In in Hin; vm_compute in Hin; destruct_or?; simplify_eq;
        try done; (split; [by eexists|cbn; lia]).
    - apply shared_direct_inv in Hd as (r & Hr & Hin). rewrite shared_decl.
      shared_resource_cases Hr v;
        apply list_elem_of_In in Hin; vm_compute in Hin; destruct_or?; simplify_eq;
        try done; (split; [by eexists|cbn; lia]). }
  split.
  - intros v u Hd. exact (proj1 (Hstep v u Hd)).
  - intros v Hg. apply (ranked_gated rank ds) in Hg; [lia|].
    intros x y Hxy. exact (proj2 (Hstep x y Hxy)).
Qed.

(** The same for the service program. *)
Theorem api_reference_graph_well_founded
    (project stack : string) (cfg : Config) (backend : Backend) :
  let ds := Api.declarations project stack cfg backend in
  (forall v u, direct ds v u -> is_Some (decl ds u))
  /\ (forall v, ~ gated_on ds v v).
Proof.
  intros ds.
  pose (rank := fun v : Api.Var =>
    match v with
    | Api.AwsMainStack => 0 | Api.Shared => 1 | Api.Provider => 2
    | Api.SecretParameter _ => 3 | Api.TargetGroup => 4 | Api.ListenerRule => 5
    | Api.Repository => 6 | Api.Image => 7 | Api.ExecutionRole => 8
    | Api.SsmPolicyAttachment => 9 | Api.TaskExecutionPolicyAttachment => 10
    | Api.SecurityGroup => 11 | Api.AppService => 12 | Api.AppDomainRecord => 13
    end).
  assert (Hstep : forall v u, direct ds v u -> is_Some (decl ds u) /\ rank u < rank v).
  { intros v u (r & Hd & Hin).
    destruct (api_declarations_cases project stack cfg backend)
      as [H|(domain & exampleSecret & H)]; fold ds in H; rewrite H in Hd |- *;
      destruct v as [| | |[|index]| | | | | | | | | |]; vm_compute in Hd; simplify_eq;
      apply list_elem_of_In in Hin; vm_compute in Hin; destruct_or?; simplify_eq;
      try done; (split; [by eexists|cbn; lia]). }
  split.
  - intros v u Hd. exact (proj1 (Hstep v u Hd)).
  - intros v Hg. apply (ranked_gated rank ds) in Hg; [lia|].
    intros x y Hxy. exact (proj2 (Hstep x y Hxy)).
Qed.

(** ** Resource identities *)

Lemma append_cons (a : ascii) (s t : string) :
  String a s +:+ t = String a (s +:+ t).
Proof. reflexivity. Qed.

Lemma append_empty (t : string) : "" +:+ t = t.
Proof. reflexivity. Qed.

Ltac distinct_names H :=
  apply String.app_inj in H; rewrite ?append_cons, ?append_empty in H;
  repeat (injection H as H); try discriminate H.

(** The engine identifies a resource by its class and its name.  In the
    shared program no two declarations have both in common, for every
    project name, stack name and list of DKIM tokens, although the
    certificate validation and its DNS record bear the same name. *)
Theorem shared_identities_unique
    (project stack : string) (cfg : Config) (backend : Backend)
    (dkimTokens azNames : list string) (region cfZoneId : string) :
  cfg !! "aws:region" = Some region ->
  cfg !! "shared:cfZoneId" = Some cfZoneId ->
  let ds := Shared.declarations project stack cfg backend dkimTokens azNames in
  (forall v1 v2 r1 r2,
     decl ds v1 = Some r1 -> decl ds v2 = Some r2 -> urn r1 = urn r2 -> v1 = v2)
  /\ name (Shared.certificateValidation project stack)
     = name (Shared.certificateValidationRecord project stack).
Proof.
  intros Hr Hz ds. split; [|reflexivity].
  intros v1 v2 r1 r2 H1 H2 Hu. unfold ds, Shared.declarations in *.
  rewrite (shared_program_declares _ _ _ _ _ _ _ _ Hr Hz) in H1, H2. cbn [fst] in *.
  rewrite shared_decl in H1, H2.
  unfold urn in Hu. injection Hu as Hty Hname.
  shared_resource_cases H1 v1; shared_resource_cases H2 v2;
    try discriminate Hty; try reflexivity; cbn [name] in Hname;
    distinct_names Hname.
  distinct_names Hname. apply pretty_nat_inj in Hname. by subst.
Qed.

Lemma shared_identities_unique_witness :
  Shared.CertificateValidation <> Shared.CertificateValidationRecord
  /\ urn (Shared.certificateValidation "shared" "dev")
     <> urn (Shared.certificateValidationRecord "shared" "dev").
Proof.
  split; [discriminate|]. intros Hu.
  pose proof (proj1 (shared_identities_unique "shared" "dev" Scenario.cfg
                       Scenario.backend ["t1"] [] "eu-west-2" "zone-1"
                       eq_refl eq_refl)
                Shared.CertificateValidation Shared.CertificateValidationRecord
                _ _ eq_refl eq_refl Hu) as H.
  discriminate H.
Defined.

Ltac api_cases H :=
  apply decl_elem_of in H; unfold Api.declared in H;
  rewrite !elem_of_cons, elem_of_nil in H; destruct_or!; simplify_eq.

(** In the service program too no two declarations have class and name in
    common, for every project name and stack name. *)
Theorem api_identities_unique
    (project stack : string) (cfg : Config) (backend : Backend)
    (domain exampleSecret : string) :
  cfg !! "api:domain" = Some domain ->
  cfg !! "api:EXAMPLE_SECRET" = Some exampleSecret ->
  let ds := Api.declarations project stack cfg backend in
  forall v1 v2 r1 r2,
    decl ds v1 = Some r1 -> decl ds v2 = Some r2 -> urn r1 = urn r2 -> v1 = v2.
Proof.
  intros Hd Hs ds v1 v2 r1 r2 H1 H2 Hu. unfold ds, Api.declarations in *.
  rewrite (api_program_declares _ _ _ _ _ _ Hd Hs) in H1, H2. cbn [fst] in *.
  unfold urn in Hu. injection Hu as Hty Hname.
  api_cases H1; api_cases H2; try discriminate Hty; try reflexivity;
    cbn in Hname; rewrite ?append_cons in Hname; try discriminate Hname;
    distinct_names Hname.
Qed.

Lemma api_identities_unique_witness :
  urn (Api.ssmPolicyAttachment "api" "dev")
  <> urn (Api.taskExecutionPolicyAttachment "api" "dev").
Proof.
  intros Hu.
  pose proof (api_identities_unique "api" "dev" Scenario.cfg Scenario.backend
                "api.example.com" "secret" eq_refl eq_refl
                Api.SsmPolicyAttachment Api.TaskExecutionPolicyAttachment
                _ _ eq_refl eq_refl Hu) as H.
  discriminate H.
Defined.

(** ** What waits for what *)

Lemma gated_last {V : Type} `{!EqDecision V} (ds : list (V * Resource V)) v u :
  gated_on ds v u -> exists x, direct ds x u.
Proof. induction 1 as [v u H|v w u H Hwu IH]; eauto. Qed.

(** The HTTPS listener takes the ARN of the certificate itself: it waits
    for the certificate and the load balancer, and no declaration of the
    shared program waits for the certificate validation, that is, for the
    certificate to be issued. *)
Theorem nothing_waits_for_certificate_validation
    (project stack : string) (cfg : Config) (backend : Backend)
    (dkimTokens azNames : list string) (region cfZoneId : string) :
  cfg !! "aws:region" = Some region ->
  cfg !! "shared:cfZoneId" = Some cfZoneId ->
  let ds := Shared.declarations project stack cfg backend dkimTokens azNames in
  field "certificateArn" (args (Shared.listener project stack))
    = Some (Ref Shared.Certificate ["arn"])
  /\ gated_on ds Shared.Listener Shared.Certificate
  /\ gated_on ds Shared.Listener Shared.LoadBalancer
  /\ (forall v, ~ gated_on ds v Shared.CertificateValidation).
Proof.
  intros Hr Hz ds. unfold ds, Shared.declarations.
  rewrite (shared_program_declares _ _ _ _ _ _ _ _ Hr Hz). cbn [fst].
  split_and!; [reflexivity|apply tc_once; shared_names..|].
  intros v Hg. apply gated_last in Hg as [x Hx].
  apply shared_direct_inv in Hx as (r & Hres & Hin).
  shared_resource_cases Hres x;
    apply list_elem_of_In in Hin; vm_compute in Hin; destruct_or?; simplify_eq; done.
Qed.

Lemma nothing_waits_for_certificate_validation_witness :
  ~ gated_on (Shared.declarations "shared" "dev" Scenario.cfg Scenario.backend
                ["t1"; "t2"; "t3"] ["eu-west-2a"])
      Shared.Listener Shared.CertificateValidation.
Proof.
  exact (proj2 (proj2 (proj2
    (nothing_waits_for_certificate_validation "shared" "dev" Scenario.cfg
       Scenario.backend ["t1"; "t2"; "t3"] ["eu-west-2a"] "eu-west-2" "zone-1"
       eq_refl eq_refl))) Shared.Listener).
Defined.

(** The database instance waits for exactly these: its cluster, the subnet
    group, the security group and the generated master password of the
    cluster, the VPC, the provider and the account stack reference.  The
    cluster is protected against deletion in the stack [prod] and in no
    other, and skips the final snapshot in every stack. *)
Theorem database_dependencies
    (project stack : string) (cfg : Config) (backend : Backend)
    (dkimTokens azNames : list string) (region cfZoneId : string) :
  cfg !! "aws:region" = Some region ->
  cfg !! "shared:cfZoneId" = Some cfZoneId ->
  let ds := Shared.declarations project stack cfg backend dkimTokens azNames in
  (forall u,
     gated_on ds Shared.RdsInstance u
     <-> u ∈ [Shared.RdsCluster; Shared.RdsSubnetGroup; Shared.RdsSecurityGroup;
              Shared.RdsInstanceMasterPassword; Shared.Vpc; Shared.Provider;
              Shared.AwsMainStack])
  /\ field "masterPassword" (args (Shared.rdsCluster project stack azNames))
     = Some (Ref Shared.RdsInstanceMasterPassword ["result"])
  /\ (field "deletionProtection" (args (Shared.rdsCluster project stack azNames))
        = Some (Bool true) <-> stack = "prod")
  /\ field "skipFinalSnapshot" (args (Shared.rdsCluster project stack azNames))
     = Some (Bool true).
Proof.
  intros Hr Hz ds. unfold ds, Shared.declarations.
  rewrite (shared_program_declares _ _ _ _ _ _ _ _ Hr Hz). cbn [fst].
  set (ds' := Shared.declared _ _ _ _ _ _ _).
  assert (Hprov : gated_on ds' Shared.Provider Shared.AwsMainStack)
    by (apply tc_once; shared_names).
  assert (Hsub : gated_on ds' Shared.RdsSubnetGroup Shared.Vpc)
    by (apply tc_once; shared_names).
  assert (Hcl : forall u, direct ds' Shared.RdsCluster u ->
                          gated_on ds' Shared.RdsInstance u).
  { intros u Hu. eapply tc_l; [|apply tc_once, Hu]. shared_names. }
  split_and!; [|reflexivity| |reflexivity].
  - intros u. split.
    + intros Hg. eapply closed_from_sound; [|exact Hg].
      apply shared_closed_from. reflexivity.
    + rewrite !elem_of_cons, elem_of_nil. intros Hu.
      destruct_or!; simplify_eq; try done.
      * apply tc_once; shared_names.
      * apply tc_once; shared_names.
      * apply Hcl. shared_names.
      * apply Hcl. shared_names.
      * eapply tc_l; [|exact Hsub]. shared_names.
      * apply tc_once; shared_names.
      * eapply tc_l; [|exact Hprov]. shared_names.
  - cbn. split.
    + intros [= H]. by apply String.eqb_eq.
    + intros ->. reflexivity.
Qed.

Lemma database_dependencies_witness :
  gated_on (Shared.declarations "shared" "dev" Scenario.cfg Scenario.backend
              [] ["eu-west-2a"])
    Shared.RdsInstance Shared.RdsInstanceMasterPassword
  /\ field "deletionProtection" (args (Shared.rdsCluster "shared" "dev" []))
     <> Some (Bool true).
Proof.
  destruct (database_dependencies "shared" "dev" Scenario.cfg Scenario.backend
              [] ["eu-west-2a"] "eu-west-2" "zone-1" eq_refl eq_refl)
    as (H1 & _ & _).
  destruct (database_dependencies "shared" "dev" Scenario.cfg Scenario.backend
              [] [] "eu-west-2" "zone-1" eq_refl eq_refl)
    as (_ & _ & H2 & _).
  split.
  - apply H1. rewrite !elem_of_cons. tauto.
  - intros H. apply H2 in H. discriminate H.
Defined.

Ltac api_names :=
  eexists; split; [reflexivity | vm_compute; set_solver].

(** Of the declarations of the service program exactly the target group,
    the listener rule, the security group, the service and the DNS record
    wait for the reference to the shared stack; the provider, the secret
    parameter, the image repository, the image, the execution role and its
    policy attachments do not. *)
Theorem service_resources_waiting_for_shared
    (project stack : string) (cfg : Config) (backend : Backend)
    (domain exampleSecret : string) :
  cfg !! "api:domain" = Some domain ->
  cfg !! "api:EXAMPLE_SECRET" = Some exampleSecret ->
  let ds := Api.declarations project stack cfg backend in
  forall v, is_Some (decl ds v) ->
    gated_on ds v Api.Shared
    <-> v ∈ [Api.TargetGroup; Api.ListenerRule; Api.SecurityGroup;
             Api.AppService; Api.AppDomainRecord].
Proof.
  intros Hd Hs ds v [r Hv]. unfold ds, Api.declarations in *.
  rewrite (api_program_declares _ _ _ _ _ _ Hd Hs) in Hv |- *. cbn [fst] in *.
  split.
  - intros Hg. api_cases Hv; try (rewrite !elem_of_cons; tauto); exfalso;
      apply (closed_from_sound _ _
               [Api.AwsMainStack; Api.Provider; Api.Repository; Api.ExecutionRole])
        in Hg; try (vm_compute; reflexivity);
      rewrite !elem_of_cons, elem_of_nil in Hg; by destruct_or!.
  - rewrite !elem_of_cons, elem_of_nil. intros Hin.
    destruct_or!; simplify_eq; try done; apply tc_once; api_names.
Qed.

Lemma service_resources_waiting_for_shared_witness :
  ~ gated_on (Api.declarations "api" "dev" Scenario.cfg Scenario.backend)
      Api.Image Api.Shared.
Proof.
  intros Hg.
  apply (service_resources_waiting_for_shared "api" "dev" Scenario.cfg
           Scenario.backend "api.example.com" "secret" eq_refl eq_refl
           Api.Image ltac:(by eexists)) in Hg.
  rewrite !elem_of_cons, elem_of_nil in Hg. by destruct_or!.
Defined.

(** The service waits for exactly these: the shared stack reference, its
    security group, target group, execution role, image and image
    repository, the secret parameter, the provider and the account stack
    reference.  It does not wait for the listener rule, nor for the two
    policy attachments of its execution role. *)
Theorem service_dependencies
    (project stack : string) (cfg : Config) (backend : Backend)
    (domain exampleSecret : string) :
  cfg !! "api:domain" = Some domain ->
  cfg !! "api:EXAMPLE_SECRET" = Some exampleSecret ->
  let ds := Api.declarations project stack cfg backend in
  (forall u,
     gated_on ds Api.AppService u
     <-> u ∈ [Api.Shared; Api.SecurityGroup; Api.TargetGroup; Api.ExecutionRole;
              Api.Image; Api.Repository; Api.SecretParameter 0; Api.Provider;
              Api.AwsMainStack])
  /\ ~ gated_on ds Api.AppService Api.ListenerRule
  /\ ~ gated_on ds Api.AppService Api.SsmPolicyAttachment
  /\ ~ gated_on ds Api.AppService Api.TaskExecutionPolicyAttachment.
Proof.
  intros Hd Hs ds. unfold ds, Api.declarations.
  rewrite (api_program_declares _ _ _ _ _ _ Hd Hs). cbn [fst].
  set (ds' := Api.declared _ _ _ _ _).
  assert (Hsound : forall u, gated_on ds' Api.AppService u ->
    u ∈ [Api.Shared; Api.SecurityGroup; Api.TargetGroup; Api.ExecutionRole;
         Api.Image; Api.Repository; Api.SecretParameter 0; Api.Provider;
         Api.AwsMainStack]).
  { intros u Hg. eapply closed_from_sound; [|exact Hg]. vm_compute. reflexivity. }
  assert (Hprov : gated_on ds' Api.Provider Api.AwsMainStack)
    by (apply tc_once; api_names).
  assert (Himg : gated_on ds' Api.Image Api.Repository)
    by (apply tc_once; api_names).
  split_and!.
  - intros u. split; [apply Hsound|].
    rewrite !elem_of_cons, elem_of_nil. intros Hu.
    destruct_or!; simplify_eq; try done; try (apply tc_once; api_names).
    + eapply tc_l; [|exact Himg]. api_names.
    + eapply tc_l; [|exact Hprov]. api_names.
  - intros Hg. apply Hsound in Hg.
    rewrite !elem_of_cons, elem_of_nil in Hg. by destruct_or!.
  - intros Hg. apply Hsound in Hg.
    rewrite !elem_of_cons, elem_of_nil in Hg. by destruct_or!.
  - intros Hg. apply Hsound in Hg.
    rewrite !elem_of_cons, elem_of_nil in Hg. by destruct_or!.
Qed.

Lemma service_dependencies_witness :
  ~ gated_on (Api.declarations "api" "dev" Scenario.cfg Scenario.backend)
      Api.AppService Api.TaskExecutionPolicyAttachment.
Proof.
  exact (proj2 (proj2 (proj2
    (service_dependencies "api" "dev" Scenario.cfg Scenario.backend
       "api.example.com" "secret" eq_refl eq_refl)))).
Defined.

(** ** Secrets *)



(** ** The availability zone of the database cluster *)

Lemma leb_trans (a b c : string) :
  String.leb a b = true -> String.leb b c = true -> String.leb a c = true.
Proof.
  intros H1%Is_true_true H2%Is_true_true. apply Is_true_true.
  change (String.le a c). by trans b.
Qed.

Lemma leb_refl (a : string) : String.leb a a = true.
Proof. apply Is_true_true. change (String.le a a). done. Qed.

Lemma sort_head (names : list string) :
  names <> [] ->
  exists first rest,
    sort names = first :: rest
    /\ first ∈ names
    /\ forall n, n ∈ names -> String.leb first n = true.
Proof.
  induction names as [|n names IH]; [done|]. intros _.
  unfold sort. cbn [foldr]. fold (sort names).
  destruct names as [|m names].
  - exists n, []. split_and!; [done|left|].
    intros x ?%list_elem_of_singleton. subst. apply leb_refl.
  - destruct IH as (first & rest & Hs & Hin & Hmin); [done|].
    rewrite Hs. cbn [insert_sorted].
    destruct (String.leb n first) eqn:Hle.
    + exists n, (first :: rest). split_and!; [done|left|].
      intros x [->|Hx]%elem_of_cons; [apply leb_refl|].
      eapply leb_trans; [exact Hle|]. by apply Hmin.
    + exists first, (insert_sorted n rest). split_and!; [done|by right|].
      intros x [->|Hx]%elem_of_cons; [|by apply Hmin].
      destruct (String.leb_total first n) as [H|H]; [done|congruence].
Qed.

(** The cluster is placed in one availability zone, the first of
    [names.sort()]: the least of the available zone names in the order of
    strings, whatever the order in which they are listed, and [undefined]
    when no zone is available. *)
Theorem first_availability_zone_is_least (project stack : string) (azNames : list string) :
  field "availabilityZones" (args (Shared.rdsCluster project stack azNames))
    = Some (Arr [Promise (Shared.firstAzName azNames)])
  /\ (azNames = [] -> Shared.firstAzName azNames = Resolved VUndefined)
  /\ (azNames <> [] ->
        exists first,
          Shared.firstAzName azNames = Resolved (VStr first)
          /\ first ∈ azNames
          /\ forall n, n ∈ azNames -> String.leb first n = true)
  /\ (forall azNames', azNames ≡ₚ azNames' ->
        Shared.firstAzName azNames = Shared.firstAzName azNames').
Proof.
  split_and!.
  - reflexivity.
  - by intros ->.
  - intros Hne. destruct (sort_head azNames Hne) as (first & rest & Hs & Hin & Hmin).
    exists first. unfold Shared.firstAzName. by rewrite Hs.
  - intros azNames' Hp. unfold Shared.firstAzName.
    destruct azNames as [|a l].
    + by apply Permutation_nil_l in Hp as ->.
    + assert (Hne' : azNames' <> []).
      { intros ->. by apply Permutation_nil_r in Hp. }
      destruct (sort_head (a :: l) ltac:(done)) as (f1 & r1 & Hs1 & Hin1 & Hmin1).
      destruct (sort_head azNames' Hne') as (f2 & r2 & Hs2 & Hin2 & Hmin2).
      rewrite Hs1, Hs2. do 2 f_equal.
      apply String.leb_antisym.
      * apply Hmin1. by rewrite Hp.
      * apply Hmin2. by rewrite <- Hp.
Qed.

Lemma first_availability_zone_is_least_witness :
  Shared.firstAzName ["eu-west-2c"; "eu-west-2a"; "eu-west-2b"]
  = Shared.firstAzName ["eu-west-2a"; "eu-west-2b"; "eu-west-2c"]
  /\ exists first,
       Shared.firstAzName ["eu-west-2c"; "eu-west-2a"; "eu-west-2b"]
         = Resolved (VStr first)
       /\ first ∈ ["eu-west-2c"; "eu-west-2a"; "eu-west-2b"]
       /\ forall n, n ∈ ["eu-west-2c"; "eu-west-2a"; "eu-west-2b"] ->
                    String.leb first n = true.
Proof.
  destruct (first_availability_zone_is_least "shared" "dev"
              ["eu-west-2c"; "eu-west-2a"; "eu-west-2b"]) as (_ & _ & H1 & H2).
  split.
  - apply H2. etrans; [apply Permutation_swap|]. apply perm_skip.
    etrans; [apply Permutation_swap|]. reflexivity.
  - apply H1. discriminate.
Defined.

(** ** The two projects of one environment *)

(** The shared project reads the accounts mapping with [getOutput] and the
    service project with [requireOutput], yet for one backend and one stack
    name they bind their providers to the same account: the allowed account
    of the one resolves to a value exactly when that of the other resolves
    to the same value, and likewise the role to assume. *)
Theorem both_projects_resolve_same_account
    (stack region : string) (backend : Backend) (x : Value) :
  (field "allowedAccountIds" (args (Shared.provider stack backend region))
     = Some (Arr [Out Shared.AwsMainStack (Resolved x)])
   <-> field "allowedAccountIds" (args (Api.provider stack backend))
     = Some (Arr [Out Api.AwsMainStack (Resolved x)]))
  /\ (field "assumeRole" (args (Shared.provider stack backend region))
     = Some (Obj [("roleArn", Out Shared.AwsMainStack (Resolved x))])
   <-> field "assumeRole" (args (Api.provider stack backend))
     = Some (Obj [("roleArn", Out Api.AwsMainStack (Resolved x))])).
Proof.
  unfold Shared.provider, Api.provider, Shared.accounts, Shared.awsMainStack,
    Api.awsMainStack, getOutput, requireOutput, newStackReference.
  cbn [args field String.eqb Ascii.eqb Bool.eqb sr_outputs].
  destruct (backend !! "example/aws/prod") as [os|]; cbn [apply prop].
  - destruct (os !! "accounts") as [accounts|]; cbn [apply].
    + destruct (props accounts [stack; "id"]), (props accounts [stack; "arn"]);
        split; split; intros H; by simplify_eq.
    + change (inherited [] "accounts") with VUndefined.
      split; split; intros H; discriminate H.
  - split; split; intros H; discriminate H.
Qed.

Lemma both_projects_resolve_same_account_witness :
  field "assumeRole" (args (Api.provider "dev" Scenario.backend1))
  = Some (Obj [("roleArn", Out Api.AwsMainStack (Resolved (VStr "role-dev")))]).
Proof.
  exact (proj1 (proj2 (both_projects_resolve_same_account "dev" "eu-west-2"
           Scenario.backend1 (VStr "role-dev"))) eq_refl).
Defined.

(** Every output that the service program reads from the shared stack is
    exported by the shared program, and the exported resource has the class
    under which the service program reads it. *)
Theorem service_reads_what_shared_exports
    (project stack : string) (cfg : Config) (backend : Backend)
    (dkimTokens azNames : list string) (region cfZoneId : string) :
  cfg !! "aws:region" = Some region ->
  cfg !! "shared:cfZoneId" = Some cfZoneId ->
  forall output class, (output, class) ∈ Exports.read_by_api ->
    exists v r,
      (output, v) ∈ Exports.shared
      /\ decl (Shared.declarations project stack cfg backend dkimTokens azNames) v
         = Some r
      /\ ty r = class.
Proof.
  intros Hr Hz output class Hin. unfold Shared.declarations.
  rewrite (shared_program_declares _ _ _ _ _ _ _ _ Hr Hz). cbn [fst].
  unfold Exports.read_by_api in Hin. rewrite !elem_of_cons, elem_of_nil in Hin.
  destruct_or!; simplify_eq; try done;
    [exists Shared.Vpc|exists Shared.EcsCluster|exists Shared.CloudflareZone
    |exists Shared.LoadBalancer|exists Shared.Listener];
    eexists; rewrite shared_decl;
    (split_and!; [|reflexivity|reflexivity]); unfold Exports.shared;
    rewrite !elem_of_cons; tauto.
Qed.

Lemma service_reads_what_shared_exports_witness :
  exists v r,
    ("listener", v) ∈ Exports.shared
    /\ decl (Shared.declarations "shared" "dev" Scenario.cfg Scenario.backend [] []) v
       = Some r
    /\ ty r = TY aws "lb.Listener".
Proof.
  apply (service_reads_what_shared_exports "shared" "dev" Scenario.cfg
           Scenario.backend [] [] "eu-west-2" "zone-1" eq_refl eq_refl).
  unfold Exports.read_by_api. rewrite !elem_of_cons. tauto.
Defined.

Lemma shared_reference_graph_well_founded_witness :
  ~ gated_on (Shared.declarations "shared" "dev" Scenario.cfg Scenario.backend
                ["t1"; "t2"; "t3"] ["eu-west-2a"])
      Shared.RdsInstance Shared.RdsInstance.
Proof.
  exact (proj2 (shared_reference_graph_well_founded "shared" "dev" Scenario.cfg
                  Scenario.backend ["t1"; "t2"; "t3"] ["eu-west-2a"])
           Shared.RdsInstance).
Defined.

Lemma api_reference_graph_well_founded_witness :
  ~ gated_on (Api.declarations "api" "dev" Scenario.cfg Scenario.backend)
      Api.AppService Api.AppService.
Proof.
  exact (proj2 (api_reference_graph_well_founded "api" "dev" Scenario.cfg
                  Scenario.backend) Api.AppService).
Defined.
